(** * tb-lint: case utilities and Tinybird file parsers

    A shallow embedding of [src/utils/caseUtils.ts], of
    [src/tb-lint/parsers.ts] and of the linter's command line, the module
    that imports the parsers and defines [lintTinybirdFiles] and [main].

    JavaScript strings are sequences of UTF-16 code units; they are modelled
    as lists of code units ([N]).  The regular expressions of the source carry
    no [u] flag, so they read the string one code unit at a time, and every
    character class they use is a set of ASCII code units.  The two host
    built-ins whose Unicode tables are not part of the repository,
    [String.prototype.toLowerCase] and [String.prototype.toUpperCase], are the
    fields of the class [JSRuntime], together with the one fact about them the
    development relies on: on a string of ASCII code units they act one code
    unit at a time, as the ASCII case mapping. *)

From Stdlib Require Import NArith List Bool Lia String Ascii PeanoNat Sorted.
From Stdlib Require Import DecimalString.
Import ListNotations.

Local Open Scope N_scope.
Local Open Scope bool_scope.
Local Open Scope list_scope.

(** ** Strings as lists of UTF-16 code units *)

Definition codeUnit := N.
Definition jsstring := list codeUnit.

(** An ASCII literal of the source, as a string of code units. *)
Definition js (s : string) : jsstring :=
  List.map N_of_ascii (list_ascii_of_string s).

Definition underscore : codeUnit := 95.
Definition backtick : codeUnit := 96.
Definition hash : codeUnit := 35.
Definition newline : codeUnit := 10.

(** The character classes of the source's regular expressions. *)

(** [[a-z]] *)
Definition isLower (c : codeUnit) : bool := (97 <=? c) && (c <=? 122).
(** [[A-Z]] *)
Definition isUpper (c : codeUnit) : bool := (65 <=? c) && (c <=? 90).
(** [[0-9]] *)
Definition isDigit (c : codeUnit) : bool := (48 <=? c) && (c <=? 57).
(** [[a-z0-9]] *)
Definition isLowerOrDigit (c : codeUnit) : bool := isLower c || isDigit c.
(** [[a-zA-Z]] *)
Definition isLetter (c : codeUnit) : bool := isLower c || isUpper c.
(** [[a-zA-Z0-9]] *)
Definition isAlnum (c : codeUnit) : bool := isLower c || isUpper c || isDigit c.
(** [[a-z0-9_]] *)
Definition isSnakeChar (c : codeUnit) : bool :=
  isLower c || isDigit c || (c =? underscore).
(** [[a-zA-Z_]], also [[a-z_]] under the [i] flag *)
Definition isIdentStart (c : codeUnit) : bool :=
  isLower c || isUpper c || (c =? underscore).
(** [[a-zA-Z0-9_]], which is also [\w] *)
Definition isWordChar (c : codeUnit) : bool :=
  isLower c || isUpper c || isDigit c || (c =? underscore).

(** [\s], and what [trim] strips: ECMAScript's WhiteSpace and LineTerminator
    code points (TAB, LF, VT, FF, CR, SP, NBSP, U+1680, U+2000..U+200A,
    U+2028, U+2029, U+202F, U+205F, U+3000, U+FEFF). *)
Definition isWhiteSpace (c : codeUnit) : bool :=
  ((9 <=? c) && (c <=? 13)) || (c =? 32) || (c =? 160) || (c =? 5760)
  || ((8192 <=? c) && (c <=? 8202)) || (c =? 8232) || (c =? 8233)
  || (c =? 8239) || (c =? 8287) || (c =? 12288) || (c =? 65279).

Definition isAscii (c : codeUnit) : bool := c <? 128.

(** The ASCII case mapping of one code unit. *)
Definition lowerChar (c : codeUnit) : codeUnit :=
  if isUpper c then c + 32 else c.
Definition upperChar (c : codeUnit) : codeUnit :=
  if isLower c then c - 32 else c.

(** The host's case conversions.  Outside ASCII they follow the Unicode
    tables of the engine (they may change the length of a string, and depend
    on context); on ASCII strings they are the maps of [lowerChar] and
    [upperChar]. *)
Class JSRuntime : Type := {
  toLowerCase : jsstring -> jsstring;
  toUpperCase : jsstring -> jsstring;
  toLowerCase_ascii : forall s,
    forallb isAscii s = true -> toLowerCase s = List.map lowerChar s;
  toUpperCase_ascii : forall s,
    forallb isAscii s = true -> toUpperCase s = List.map upperChar s
}.

(** A runtime whose case conversions touch ASCII letters only: every code
    unit is mapped on its own.  It shows that the laws of [JSRuntime] can be
    met, and it is the runtime the closed examples are evaluated on: where
    no runtime is in the context, instance resolution picks this one. *)
#[export] Instance asciiRuntime : JSRuntime := {|
  toLowerCase := List.map lowerChar;
  toUpperCase := List.map upperChar;
  toLowerCase_ascii := fun s _ => eq_refl;
  toUpperCase_ascii := fun s _ => eq_refl
|}.

(** [a === b] on strings. *)
Fixpoint strictEq (a b : jsstring) : bool :=
  match a, b with
  | [], [] => true
  | x :: a', y :: b' => (x =? y) && strictEq a' b'
  | _, _ => false
  end.

(** [!name] for a value of type string: only the empty string is falsy. *)
Definition falsy (name : jsstring) : bool :=
  match name with [] => true | _ :: _ => false end.

(** [s.startsWith(t)] *)
Fixpoint startsWith (s t : jsstring) : bool :=
  match t, s with
  | [], _ => true
  | y :: t', x :: s' => (x =? y) && startsWith s' t'
  | _ :: _, [] => false
  end.

(** [s.endsWith(t)] *)
Definition endsWith (s t : jsstring) : bool :=
  (List.length t <=? List.length s)%nat
  && strictEq (skipn (List.length s - List.length t)%nat s) t.

(** [s.includes(t)] *)
Fixpoint includes (s t : jsstring) : bool :=
  startsWith s t
  || match s with
     | [] => false
     | _ :: s' => includes s' t
     end.

(** The longest prefix of [s] whose code units satisfy [p], and what follows
    it: how a greedy [[class]*] reads its input. *)
Fixpoint span (p : codeUnit -> bool) (s : jsstring) : jsstring * jsstring :=
  match s with
  | [] => ([], [])
  | c :: s' =>
      if p c then let (a, b) := span p s' in (c :: a, b) else ([], s)
  end.

Definition dropWhile (p : codeUnit -> bool) (s : jsstring) : jsstring :=
  snd (span p s).

(** [s.trim()] *)
Definition trim (s : jsstring) : jsstring :=
  rev (dropWhile isWhiteSpace (rev (dropWhile isWhiteSpace s))).

(** [s.split('\n')]: the lines of [s], at least one. *)
Fixpoint splitLines (s : jsstring) : list jsstring :=
  match s with
  | [] => [[]]
  | c :: s' =>
      if c =? newline then [] :: splitLines s'
      else match splitLines s' with
           | l :: ls => (c :: l) :: ls
           | [] => [[c]]
           end
  end.

(** A file from its lines. *)
Fixpoint joinLines (lns : list jsstring) : jsstring :=
  match lns with
  | [] => []
  | [ln] => ln
  | ln :: rest => ln ++ newline :: joinLines rest
  end.

(** ** src/utils/caseUtils.ts *)

(** [/^[a-z]/.test(name)] *)
Definition test_startsLower (name : jsstring) : bool :=
  match name with
  | c :: _ => isLower c
  | [] => false
  end.

(** [/^[a-z][a-zA-Z0-9]*$/.test(name)]: without the [m] flag [$] is the end
    of the input, so the star must read everything after the first code
    unit. *)
Definition test_camelShape (name : jsstring) : bool :=
  match name with
  | c :: rest => isLower c && forallb isAlnum rest
  | [] => false
  end.

(** [/^[a-z][a-z0-9_]*$/.test(name)] *)
Definition test_snakeShape (name : jsstring) : bool :=
  match name with
  | c :: rest => isLower c && forallb isSnakeChar rest
  | [] => false
  end.

(** [/__/.test(name)]: the first position where two underscores follow each
    other, if there is one. *)
Fixpoint test_doubleUnderscore (name : jsstring) : bool :=
  match name with
  | c1 :: ((c2 :: _) as tl) =>
      ((c1 =? underscore) && (c2 =? underscore)) || test_doubleUnderscore tl
  | _ => false
  end.

Definition isCamelCase (name : jsstring) : bool :=
  if falsy name || (List.length name =? 0)%nat then false
  else if negb (test_startsLower name) then false
  else if negb (test_camelShape name) then false
  else true.

Definition isSnakeCase (name : jsstring) : bool :=
  if falsy name || (List.length name =? 0)%nat then false
  else if negb (test_startsLower name) then false
  else if negb (test_snakeShape name) then false
  else if test_doubleUnderscore name || endsWith name [underscore] then false
  else true.

(** [.replace(/([a-z0-9])([A-Z])/g, '$1_$2')]: the input is read from left
    to right; a match takes two code units and the search goes on after
    it. *)
Fixpoint replaceLowerUpper (s : jsstring) : jsstring :=
  match s with
  | c1 :: ((c2 :: rest) as tl) =>
      if isLowerOrDigit c1 && isUpper c2
      then c1 :: underscore :: c2 :: replaceLowerUpper rest
      else c1 :: replaceLowerUpper tl
  | _ => s
  end.

(** [.replace(/([A-Z])([A-Z][a-z])/g, '$1_$2')]: a match takes three code
    units and the search goes on after it. *)
Fixpoint replaceAcronym (s : jsstring) : jsstring :=
  match s with
  | c1 :: ((c2 :: c3 :: rest) as tl) =>
      if isUpper c1 && isUpper c2 && isLower c3
      then c1 :: underscore :: c2 :: c3 :: replaceAcronym rest
      else c1 :: replaceAcronym tl
  | _ => s
  end.

Section CaseUtils.
Context {R : JSRuntime}.

Definition camelToSnake (name : jsstring) : jsstring :=
  if falsy name then name
  else toLowerCase (replaceAcronym (replaceLowerUpper name)).

(** [.replace(/_([a-z0-9])/g, (_, char) => char.toUpperCase())] *)
Fixpoint replaceUnderscoreChar (s : jsstring) : jsstring :=
  match s with
  | c1 :: ((c2 :: rest) as tl) =>
      if (c1 =? underscore) && isLowerOrDigit c2
      then toUpperCase [c2] ++ replaceUnderscoreChar rest
      else c1 :: replaceUnderscoreChar tl
  | _ => s
  end.

Definition snakeToCamel (name : jsstring) : jsstring :=
  if falsy name then name
  else replaceUnderscoreChar (toLowerCase name).

Definition validateMapping (camelName snakeName : jsstring) : bool :=
  strictEq (camelToSnake camelName) snakeName.

End CaseUtils.

(** ** The conversions as the specification words them *)

(** Whether a word boundary falls between [prev] and [c], where [next] is
    what follows [c]: (a) [prev] is a lowercase letter or a digit and [c] is
    uppercase, or (b) [prev] and [c] are uppercase and [c] is followed by a
    lowercase letter. *)
Definition boundaryBefore (prev : option codeUnit) (c : codeUnit)
    (next : jsstring) : bool :=
  match prev with
  | None => false
  | Some p =>
      (isLowerOrDigit p && isUpper c)
      || (isUpper p && isUpper c
          && match next with n :: _ => isLower n | [] => false end)
  end.

(** One pass over the input that writes an underscore at every boundary. *)
Fixpoint insertBoundaries (prev : option codeUnit) (s : jsstring) : jsstring :=
  match s with
  | [] => []
  | c :: rest =>
      (if boundaryBefore prev c rest then [underscore] else [])
      ++ c :: insertBoundaries (Some c) rest
  end.

(** What becomes of the code unit [c] of the lowercased input, between
    [prev] and [next], when [after c] says which code units an underscore is
    removed in front of: an underscore in front of such a code unit goes, and
    such a code unit behind an underscore is uppercased. *)
Definition camelizeAt (after : codeUnit -> bool) (prev : option codeUnit)
    (c : codeUnit) (next : jsstring) : jsstring :=
  let removed :=
    (c =? underscore)
    && match next with n :: _ => after n | [] => false end in
  let raised :=
    match prev with
    | Some p => (p =? underscore) && after c
    | None => false
    end in
  if removed then [] else if raised then [upperChar c] else [c].

Fixpoint camelize (after : codeUnit -> bool) (prev : option codeUnit)
    (s : jsstring) : jsstring :=
  match s with
  | [] => []
  | c :: rest =>
      camelizeAt after prev c rest ++ camelize after (Some c) rest
  end.

(** The specification's wording: an underscore followed by a character,
    whichever it is. *)
Definition anyChar (c : codeUnit) : bool := true.

(** ** src/tb-lint/parsers.ts *)

Inductive Severity : Type := error | warning.

Record LintIssue : Type := mkIssue {
  file : jsstring;
  line : nat;
  column : jsstring;
  issue : jsstring;
  severity : Severity
}.

(** The double quote of the message templates. *)
Definition quote : codeUnit := 34.

Definition quoted (name : jsstring) : jsstring := quote :: name ++ [quote].

(** The issues the scanners push, one constructor for each object literal
    of the source. *)

(** [parseDatasource]: a column name that is not snake_case. *)
Definition columnNotSnake (filename : jsstring) (lineNumber : nat)
    (columnName : jsstring) : LintIssue :=
  mkIssue filename lineNumber columnName
    (js "Column name " ++ quoted columnName ++ js " should be in snake_case")
    error.

(** [parsePipe]: the column of an [AS] pair that is not snake_case. *)
Definition asColumnNotSnake (filename : jsstring) (lineNumber : nat)
    (columnName : jsstring) : LintIssue :=
  mkIssue filename lineNumber columnName
    (js "Column " ++ quoted columnName ++ js " should be in snake_case")
    error.

(** [parsePipe]: the alias of an [AS] pair that is not camelCase. *)
Definition aliasNotCamel (filename : jsstring) (lineNumber : nat)
    (aliasName : jsstring) : LintIssue :=
  mkIssue filename lineNumber aliasName
    (js "Alias " ++ quoted aliasName
     ++ js " should be in camelCase for API output")
    error.

(** [parsePipe]: an alias that is snake_case. *)
Definition aliasIsSnake (filename : jsstring) (lineNumber : nat)
    (aliasName : jsstring) : LintIssue :=
  mkIssue filename lineNumber aliasName
    (js "Alias " ++ quoted aliasName
     ++ js " is snake_case but should be camelCase for API output")
    error.

(** An optional backtick, [`?]. *)
Definition skipBacktick (s : jsstring) : jsstring :=
  match s with
  | c :: s' => if c =? backtick then s' else s
  | [] => s
  end.

(** [trimmed.match(/^`?(IDENT)`?\s+\w+/)], the first group, where IDENT
    stands for the source's [[a-zA-Z_][a-zA-Z0-9_]*].  Every repetition is
    greedy and is followed by something it cannot read itself (white space
    after a name, a word character after white space), so giving back a
    code unit never turns a failure into a match. *)
Definition matchColumn (trimmed : jsstring) : option jsstring :=
  match skipBacktick trimmed with
  | c :: s1 =>
      if isIdentStart c then
        let (tail, s2) := span isWordChar s1 in
        let (ws, s3) := span isWhiteSpace (skipBacktick s2) in
        match ws, s3 with
        | _ :: _, w :: _ => if isWordChar w then Some (c :: tail) else None
        | _, _ => None
        end
      else None
  | [] => None
  end.

(** [A] and [S] under the [i] flag. *)
Definition isA (c : codeUnit) : bool := (c =? 65) || (c =? 97).
Definition isS (c : codeUnit) : bool := (c =? 83) || (c =? 115).

(** [\b] between [prev] and the head of [s]. *)
Definition wordBoundary (prev : option codeUnit) (s : jsstring) : bool :=
  xorb (match prev with Some p => isWordChar p | None => false end)
       (match s with c :: _ => isWordChar c | [] => false end).

(** One attempt of [/\b(IDENT)\s+AS\s+(IDENT)/gi] at the head of [s], with
    [prev] the code unit before it (IDENT as above): the two groups and what
    is left after the match.  Here too no repetition can give back a code
    unit to any effect. *)
Definition asMatchAt (prev : option codeUnit) (s : jsstring)
    : option (jsstring * jsstring * jsstring) :=
  match s with
  | c :: s1 =>
      if wordBoundary prev s && isIdentStart c then
        let (tail, s2) := span isWordChar s1 in
        let (ws1, s3) := span isWhiteSpace s2 in
        match ws1, s3 with
        | _ :: _, a :: s' :: s4 =>
            if isA a && isS s' then
              let (ws2, s5) := span isWhiteSpace s4 in
              match ws2, s5 with
              | _ :: _, d :: s6 =>
                  if isIdentStart d then
                    let (tail2, s7) := span isWordChar s6 in
                    Some (c :: tail, d :: tail2, s7)
                  else None
              | _, _ => None
              end
            else None
        | _, _ => None
        end
      else None
  | [] => None
  end.

(** [line.matchAll(...)]: the matches from left to right, each search
    starting where the match before it ended.  [fuel] bounds the number of
    positions tried. *)
Fixpoint matchAllAs_from (fuel : nat) (prev : option codeUnit) (s : jsstring)
    : list (jsstring * jsstring) :=
  match fuel with
  | O => []
  | S fuel' =>
      match s with
      | [] => []
      | c :: s' =>
          match asMatchAt prev s with
          | Some (columnName, aliasName, rest) =>
              (columnName, aliasName)
              :: matchAllAs_from fuel' (Some (List.last aliasName c)) rest
          | None => matchAllAs_from fuel' (Some c) s'
          end
      end
  end.

Definition matchAllAs (line : jsstring) : list (jsstring * jsstring) :=
  matchAllAs_from (S (List.length line)) None line.

(** Whether [[a-z_]+[_][a-z_]+] can read the whole of [run]: an underscore
    with a code unit before it and a code unit after it. *)
Definition hasInnerUnderscore (run : jsstring) : bool :=
  match run with
  | _ :: rest => existsb (fun c => c =? underscore) (removelast rest)
  | [] => false
  end.

(** One attempt of [/AS\s+([a-z_]+[_][a-z_]+)/i] at the head of [s]: the
    group.  Its last repetition is greedy and nothing follows it, so the
    group is the whole run of letters and underscores. *)
Definition snakeAliasAt (s : jsstring) : option jsstring :=
  match s with
  | a :: s' :: s1 =>
      if isA a && isS s' then
        let (ws, s2) := span isWhiteSpace s1 in
        match ws with
        | _ :: _ =>
            let run := fst (span isIdentStart s2) in
            if hasInnerUnderscore run then Some run else None
        | [] => None
        end
      else None
  | _ => None
  end.

(** [line.match(/AS\s+([a-z_]+[_][a-z_]+)/i)]: the first position with a
    match. *)
Fixpoint matchSnakeAlias (s : jsstring) : option jsstring :=
  match s with
  | [] => None
  | _ :: s' =>
      match snakeAliasAt s with
      | Some aliasName => Some aliasName
      | None => matchSnakeAlias s'
      end
  end.

(** The loop variables of [parseDatasource] and [parsePipe]. *)
Record ScanState : Type := mkState {
  inSection : bool;
  lineNumber : nat;
  issues : list LintIssue
}.

Section Parsers.
Context {R : JSRuntime}.

(** One turn of the loop of [parseDatasource]; [inSection] is
    [inSchemaSection]. *)
Definition datasourceStep (filename : jsstring) (st : ScanState)
    (ln : jsstring) : ScanState :=
  let lineNumber := S (lineNumber st) in
  let trimmed := trim ln in
  if startsWith (toUpperCase trimmed) (js "SCHEMA") then
    mkState true lineNumber (issues st)
  else if inSection st
          && (startsWith (toUpperCase trimmed) (js "ENGINE")
              || strictEq trimmed []) then
    if startsWith (toUpperCase trimmed) (js "ENGINE")
    then mkState false lineNumber (issues st)
    else mkState (inSection st) lineNumber (issues st)
  else if inSection st && (0 <? List.length trimmed)%nat
          && negb (startsWith trimmed [hash]) then
    match matchColumn trimmed with
    | Some columnName =>
        if negb (isSnakeCase columnName) then
          mkState (inSection st) lineNumber
            (issues st ++ [columnNotSnake filename lineNumber columnName])
        else mkState (inSection st) lineNumber (issues st)
    | None => mkState (inSection st) lineNumber (issues st)
    end
  else mkState (inSection st) lineNumber (issues st).

Definition parseDatasource (content filename : jsstring) : list LintIssue :=
  issues (fold_left (datasourceStep filename) (splitLines content)
            (mkState false 0 [])).

(** The two checks on one match of [matchAll]. *)
Definition checkAs (filename : jsstring) (lineNumber : nat)
    (m : jsstring * jsstring) : list LintIssue :=
  let (columnName, aliasName) := m in
  (if negb (isSnakeCase columnName) && negb (includes columnName (js "("))
   then [asColumnNotSnake filename lineNumber columnName]
   else [])
  ++ (if negb (isCamelCase aliasName)
      then [aliasNotCamel filename lineNumber aliasName]
      else []).

(** What the body of the loop of [parsePipe] pushes for a line it does not
    skip. *)
Definition scanLine (filename : jsstring) (lineNumber : nat)
    (ln : jsstring) : list LintIssue :=
  flat_map (checkAs filename lineNumber) (matchAllAs ln)
  ++ match matchSnakeAlias ln with
     | Some aliasName =>
         if isSnakeCase aliasName
         then [aliasIsSnake filename lineNumber aliasName]
         else []
     | None => []
     end.

(** Whether a line opens a SQL block. *)
Definition startsSql (ln : jsstring) : bool :=
  startsWith (toUpperCase (trim ln)) (js "SELECT")
  || startsWith (toUpperCase (trim ln)) (js "WITH").

(** One turn of the loop of [parsePipe]; [inSection] is [inSqlBlock]. *)
Definition pipeStep (filename : jsstring) (st : ScanState)
    (ln : jsstring) : ScanState :=
  let lineNumber := S (lineNumber st) in
  let inSqlBlock := if startsSql ln then true else inSection st in
  if negb inSqlBlock then mkState inSqlBlock lineNumber (issues st)
  else mkState inSqlBlock lineNumber
         (issues st ++ scanLine filename lineNumber ln).

Definition parsePipe (content filename : jsstring) : list LintIssue :=
  issues (fold_left (pipeStep filename) (splitLines content)
            (mkState false 0 [])).

End Parsers.

(** The issues of the lines [lns], numbered from [n] on, when every one of
    them is scanned. *)
Fixpoint scanFrom (filename : jsstring) (n : nat)
    (lns : list jsstring) : list LintIssue :=
  match lns with
  | [] => []
  | ln :: rest => scanLine filename n ln ++ scanFrom filename (S n) rest
  end.

(** ** Definitions the statements and proofs below use *)

(** Rule (a) alone, position by position. *)
Definition boundaryLowerUpper (prev : option codeUnit) (c : codeUnit) : bool :=
  match prev with
  | Some p => isLowerOrDigit p && isUpper c
  | None => false
  end.

Fixpoint insertLowerUpper (prev : option codeUnit) (s : jsstring) : jsstring :=
  match s with
  | [] => []
  | c :: rest =>
      (if boundaryLowerUpper prev c then [underscore] else [])
      ++ c :: insertLowerUpper (Some c) rest
  end.

(** What [snakeToCamel] makes of [camelToSnake s]: the letters of [s], of
    which only those that start a word keep their case. *)
Fixpoint recase (prev : option codeUnit) (s : jsstring) : jsstring :=
  match s with
  | [] => []
  | c :: rest =>
      (if boundaryBefore prev c rest then c else lowerChar c)
      :: recase (Some c) rest
  end.

(** [prev'] is what [recase] made of [prev]. *)
Definition recased (prev prev' : option codeUnit) : Prop :=
  match prev, prev' with
  | None, None => True
  | Some p, Some p' => isAlnum p = true /\ (p' = p \/ p' = lowerChar p)
  | _, _ => False
  end.

(** The query of the scanner scenario. *)
Definition scenarioQuery : jsstring :=
  js "SELECT user_id AS userId, session_id AS session_id FROM events".

(** The scenario's file in its shortest form: the header, then the three
    column lines. *)
Definition scenarioDatasource : jsstring :=
  joinLines [js "SCHEMA >"; js "    user_id String,"; js "    userId String,";
             js "    session_id String"].

Section SchemaLines.
Context {R : JSRuntime}.

(** The line is the header of a schema section. *)
Definition opensSchema (ln : jsstring) : bool :=
  startsWith (toUpperCase (trim ln)) (js "SCHEMA").

(** A line that is blank, starts with ENGINE or is a comment, and is no
    header. *)
Definition quietLine (ln : jsstring) : bool :=
  negb (opensSchema ln)
  && (strictEq (trim ln) []
      || startsWith (toUpperCase (trim ln)) (js "ENGINE")
      || startsWith (trim ln) [hash]).

End SchemaLines.

(** The files of the repository's tests, given by their lines, under the
    ASCII runtime. *)
Definition datasourceIssues (lns : list string) : list LintIssue :=
  parseDatasource (R := asciiRuntime) (joinLines (List.map js lns))
    (js "test.datasource").

Definition pipeIssues (lns : list string) : list LintIssue :=
  parsePipe (R := asciiRuntime) (joinLines (List.map js lns)) (js "test.pipe").

(** ** Predicates on names, for the round trips *)

Definition notUnderscore (c : codeUnit) : bool := negb (c =? underscore).

(** No two uppercase letters in a row, unless a lowercase letter follows
    the second: every uppercase letter starts a word of its own. *)
Fixpoint acronymFree (s : jsstring) : bool :=
  match s with
  | c1 :: ((c2 :: rest) as tl) =>
      (negb (isUpper c1 && isUpper c2)
       || match rest with n :: _ => isLower n | [] => false end)
      && acronymFree tl
  | _ => true
  end.

(** Every underscore is followed by a lowercase letter, and by two of them
    when the word before the underscore is a single letter that itself
    follows an underscore ([afterRaised]). *)
Fixpoint restorable (afterRaised : bool) (s : jsstring) : bool :=
  match s with
  | [] => true
  | c :: rest =>
      if c =? underscore then
        match rest with
        | x :: rest' =>
            isLower x
            && (negb afterRaised
                || match rest' with y :: _ => isLower y | [] => false end)
            && restorable true rest'
        | [] => false
        end
      else restorable false rest
  end.

(** Whether the first code unit is a lowercase letter. *)
Definition headLower (s : jsstring) : bool :=
  match s with y :: _ => isLower y | [] => false end.

(** ** Predicates and maps on files and issues *)

(** Whether an [A] or [a] is followed by an [S] or [s] somewhere. *)
Fixpoint hasAS (s : jsstring) : bool :=
  match s with
  | a :: ((b :: _) as tl) => (isA a && isS b) || hasAS tl
  | _ => false
  end.

(** The issue one line further down. *)
Definition bumpLine (i : LintIssue) : LintIssue :=
  mkIssue (file i) (S (line i)) (column i) (issue i) (severity i).

(** The issue one line further down when it is below line [after]. *)
Definition shiftLine (after : nat) (i : LintIssue) : LintIssue :=
  if (after <? line i)%nat then bumpLine i else i.

Section EngineLines.
Context {R : JSRuntime}.

(** The line closes a schema section. *)
Definition closesSchema (ln : jsstring) : bool :=
  startsWith (toUpperCase (trim ln)) (js "ENGINE").

End EngineLines.

(** [[a-zA-Z_][a-zA-Z0-9_]*] reads the whole of [name]. *)
Definition isIdentifier (name : jsstring) : bool :=
  match name with
  | c :: tail => isIdentStart c && forallb isWordChar tail
  | [] => false
  end.

(** An issue of [parsePipe] together with the check that failed. *)
Definition justified (filename : jsstring) (i : LintIssue) : Prop :=
  (i = asColumnNotSnake filename (line i) (column i)
   /\ isSnakeCase (column i) = false)
  \/ (i = aliasNotCamel filename (line i) (column i)
      /\ isCamelCase (column i) = false)
  \/ (i = aliasIsSnake filename (line i) (column i)
      /\ isSnakeCase (column i) = true).

(** ** The command line of tb-lint

    The linter's entry point reads the file system and writes to the
    console.  What it needs of its host is the class [Host]: the working
    directory, [glob], [readFile] and [relative], the first two of which may
    throw.  What it writes is the list of its [console.log] and
    [console.error] calls, in order. *)

(** [parseIncl]: the parser of pipes, reused. *)
Definition parseIncl {R : JSRuntime} (content filename : jsstring)
    : list LintIssue :=
  parsePipe content filename.

Module colors.
Definition reset : jsstring := 27 :: js "[0m".
Definition red : jsstring := 27 :: js "[31m".
Definition yellow : jsstring := 27 :: js "[33m".
Definition green : jsstring := 27 :: js "[32m".
Definition cyan : jsstring := 27 :: js "[36m".
Definition dim : jsstring := 27 :: js "[2m".
End colors.

(** The three symbols of the messages: U+26A0, U+2717, U+2713. *)
Definition warningSign : codeUnit := 9888.
Definition ballotX : codeUnit := 10007.
Definition checkMark : codeUnit := 10003.

(** A length or a line number inside a template literal. *)
Definition decimal (n : nat) : jsstring :=
  js (NilEmpty.string_of_uint (Nat.to_uint n)).

Definition severityText (s : Severity) : jsstring :=
  match s with error => js "error" | warning => js "warning" end.

Record LintOptions : Type := mkOptions {
  path : option jsstring;
  verbose : option bool
}.

Class Host : Type := {
  Exception : Type;
  (** [process.cwd()] *)
  cwd : jsstring;
  (** [glob(pattern, { cwd, absolute: true })] *)
  glob : jsstring -> jsstring -> Exception + list jsstring;
  (** [readFile(file, 'utf-8')] *)
  readFile : jsstring -> Exception + jsstring;
  (** [relative(from, to)] *)
  relative : jsstring -> jsstring -> jsstring
}.

Inductive Output {H : Host} : Type :=
| Log (text : jsstring)
| LogError (text : jsstring) (e : Exception).



Definition isHelpFlag (arg : jsstring) : bool :=
  strictEq arg (js "--help") || strictEq arg (js "-h").


Section Lint.
Context {R : JSRuntime} {H : Host}.

(** The parser a file is given to, by the end of its name. *)
Definition lintFile (searchPath file content : jsstring) : list LintIssue :=
  let relativePath := relative searchPath file in
  if endsWith file (js ".datasource")
  then parseDatasource content relativePath
  else if endsWith file (js ".pipe") then parsePipe content relativePath
  else if endsWith file (js ".incl") then parseIncl content relativePath
  else [].

Definition issueLine (i : LintIssue) : Output :=
  let severityColor :=
    match severity i with error => colors.red | warning => colors.yellow end in
  Log (js "  " ++ severityColor ++ severityText (severity i) ++ colors.reset
       ++ js " [line " ++ decimal (line i) ++ js "] " ++ issue i).

(** What the loop prints for one file. *)
Definition reportFile (verbose : bool) (relativePath : jsstring)
    (issues : list LintIssue) : list Output :=
  if (0 <? List.length issues)%nat || verbose then
    if (0 <? List.length issues)%nat then
      Log (colors.red ++ ballotX :: colors.reset ++ js " " ++ relativePath)
      :: List.map issueLine issues ++ [Log []]
    else if verbose then
      [Log (colors.green ++ checkMark :: colors.reset ++ js " "
            ++ relativePath)]
    else []
  else [].

(** The loop over the files: the console so far and the issues so far; a
    file that cannot be read ends it with the exception. *)
Fixpoint lintFiles (searchPath : jsstring) (verbose : bool)
    (files : list jsstring) (out : list Output) (allIssues : list LintIssue)
    : list Output * (Exception + list LintIssue) :=
  match files with
  | [] => (out, inr allIssues)
  | file :: rest =>
      match readFile file with
      | inl e => (out, inl e)
      | inr content =>
          let issues := lintFile searchPath file content in
          lintFiles searchPath verbose rest
            (out ++ reportFile verbose (relative searchPath file) issues)
            (allIssues ++ issues)
      end
  end.

Definition summary (nFiles nIssues : nat) : list Output * nat :=
  let head :=
    [Log (colors.cyan ++ js "Summary" ++ colors.reset);
     Log (js "Files checked: " ++ decimal nFiles);
     Log (js "Issues found: " ++ decimal nIssues)] in
  if (nIssues =? 0)%nat then
    (head ++ [Log (newline :: colors.green
                   ++ checkMark :: js " All checks passed!" ++ colors.reset)],
     0%nat)
  else
    (head ++ [Log (newline :: colors.red
                   ++ ballotX :: js " Linting failed with "
                   ++ decimal nIssues ++ js " issue(s)" ++ colors.reset)],
     1%nat).

(** [lintTinybirdFiles]: the console, and the exit status it resolves to or
    the exception it rejects with. *)
Definition lintTinybirdFiles (options : LintOptions)
    : list Output * (Exception + nat) :=
  let searchPath :=
    match path options with
    | Some p => if falsy p then cwd else p
    | None => cwd
    end in
  let verbose :=
    match verbose options with Some b => b | None => false end in
  let banner :=
    [Log (colors.cyan ++ js "Tinybird File Linter" ++ colors.reset);
     Log (colors.dim ++ js "Scanning: " ++ searchPath ++ colors.reset
          ++ [newline])] in
  match glob (js "**/*.datasource") searchPath with
  | inl e => (banner, inl e)
  | inr datasourceFiles =>
  match glob (js "**/*.pipe") searchPath with
  | inl e => (banner, inl e)
  | inr pipeFiles =>
  match glob (js "**/*.incl") searchPath with
  | inl e => (banner, inl e)
  | inr inclFiles =>
      let allFiles := datasourceFiles ++ pipeFiles ++ inclFiles in
      if (List.length allFiles =? 0)%nat then
        (banner ++ [Log (colors.yellow ++ warningSign
                         :: js " No Tinybird files found" ++ colors.reset)],
         inr 0%nat)
      else
        let found :=
          Log (js "Found " ++ decimal (List.length allFiles)
               ++ js " Tinybird files to check" ++ [newline]) in
        match lintFiles searchPath verbose allFiles (banner ++ [found]) [] with
        | (out, inl e) => (out, inl e)
        | (out, inr allIssues) =>
            let (tail, status) :=
              summary (List.length allFiles) (List.length allIssues) in
            (out ++ tail, inr status)
        end
  end end end.


End Lint.

(** *** For the statements about the command line *)



(** [options.path || process.cwd()] *)
Definition searchPathOf {H : Host} (options : LintOptions) : jsstring :=
  match path options with
  | Some p => if falsy p then cwd else p
  | None => cwd
  end.

(** The issues of a file that can be read. *)
Definition issuesOf {R : JSRuntime} {H : Host} (searchPath file : jsstring)
    : list LintIssue :=
  match readFile file with
  | inr content => lintFile searchPath file content
  | inl _ => []
  end.

(** A host with three files under [/project], the last of which cannot be
    read when [broken] is set; its exceptions are messages.  The closed
    examples on the command line run on it. *)
Definition demoHost (broken : bool) : Host := {|
  Exception := jsstring;
  cwd := js "/project";
  glob := fun pattern dir =>
    if negb (strictEq dir (js "/project")) then inl (js "ENOTDIR")
    else if strictEq pattern (js "**/*.datasource")
    then inr [js "/project/events.datasource"]
    else if strictEq pattern (js "**/*.pipe")
    then inr [js "/project/top.pipe"]
    else if strictEq pattern (js "**/*.incl")
    then inr [js "/project/part.incl"]
    else inr [];
  readFile := fun file =>
    if strictEq file (js "/project/events.datasource")
    then inr (joinLines [js "SCHEMA >"; js "    user_id String,";
                         js "    userId String"])
    else if strictEq file (js "/project/top.pipe")
    then inr (js "SELECT user_id AS userId FROM events")
    else if strictEq file (js "/project/part.incl") && negb broken
    then inr (js "SELECT 1")
    else inl (js "ENOENT");
  relative := fun from to => skipn (S (List.length from)) to
|}.

(** * Properties *)

(** ** Code units and strings *)

Ltac classes :=
  unfold isSnakeChar, isIdentStart, isWordChar, isAlnum, isLetter,
    isLowerOrDigit, isAscii, lowerChar, upperChar, isLower, isUpper, isDigit,
    underscore in *.

(** Decides a goal about the classes of a few code units by cases on the
    comparisons it is made of. *)
Ltac by_cases_on_classes :=
  classes;
  repeat match goal with
    | |- context [?a <=? ?b] => destruct (N.leb_spec a b)
    | H : context [?a <=? ?b] |- _ => destruct (N.leb_spec a b)
    | |- context [?a =? ?b] => destruct (N.eqb_spec a b)
    | H : context [?a =? ?b] |- _ => destruct (N.eqb_spec a b)
    | |- context [?a <? ?b] => destruct (N.ltb_spec a b)
    | H : context [?a <? ?b] |- _ => destruct (N.ltb_spec a b)
    end;
  simpl in *; try reflexivity; try discriminate; try lia.

Lemma strictEq_spec (a b : jsstring) : strictEq a b = true <-> a = b.
Proof.
  revert b; induction a as [|x a IH]; intros [|y b]; simpl;
    try (split; [discriminate | discriminate]); try tauto.
  rewrite andb_true_iff, N.eqb_eq, IH. split.
  - intros [-> ->]; reflexivity.
  - intros E; injection E; auto.
Qed.

Lemma isUpper_not_lower c : isUpper c = true -> isLower c = false.
Proof. by_cases_on_classes. Qed.

Lemma isUpper_not_lowerOrDigit c :
  isUpper c = true -> isLowerOrDigit c = false.
Proof. by_cases_on_classes. Qed.

Lemma isLowerOrDigit_not_upper c :
  isLowerOrDigit c = true -> isUpper c = false.
Proof. by_cases_on_classes. Qed.

Lemma isLower_lowerOrDigit c : isLower c = true -> isLowerOrDigit c = true.
Proof. by_cases_on_classes. Qed.

Lemma lowerChar_upper c :
  isUpper c = true ->
  isLower (lowerChar c) = true /\ upperChar (lowerChar c) = c.
Proof. by_cases_on_classes. Qed.

Lemma lowerChar_not_upper c : isUpper (lowerChar c) = false.
Proof. by_cases_on_classes. Qed.

Lemma lowerChar_fixed c : isUpper c = false -> lowerChar c = c.
Proof. unfold lowerChar; intros ->; reflexivity. Qed.

Lemma lowerChar_idem c : lowerChar (lowerChar c) = lowerChar c.
Proof. apply lowerChar_fixed, lowerChar_not_upper. Qed.

Lemma lowerChar_alnum c :
  isAlnum c = true -> isLowerOrDigit (lowerChar c) = true.
Proof. by_cases_on_classes. Qed.

Lemma upperChar_lowerOrDigit c :
  isLowerOrDigit c = true -> isAlnum (upperChar c) = true.
Proof. by_cases_on_classes. Qed.

Lemma isSnakeChar_ascii c : isSnakeChar c = true -> isAscii c = true.
Proof. by_cases_on_classes. Qed.

Lemma isAlnum_ascii c : isAlnum c = true -> isAscii c = true.
Proof. by_cases_on_classes. Qed.

Lemma isSnakeChar_lower_fixed c : isSnakeChar c = true -> lowerChar c = c.
Proof. by_cases_on_classes. Qed.

(** ** The classifiers *)

Lemma forallb_alnum_Forall (s : jsstring) :
  forallb isAlnum s = true
  <-> Forall (fun c => isLetter c = true \/ isDigit c = true) s.
Proof.
  rewrite forallb_forall, Forall_forall.
  split; intros H c Hc; specialize (H c Hc); unfold isAlnum, isLetter in *.
  - apply orb_true_iff in H; destruct H; auto.
  - apply orb_true_iff; tauto.
Qed.

Lemma forallb_snake_Forall (s : jsstring) :
  forallb isSnakeChar s = true
  <-> Forall (fun c => isLower c = true \/ isDigit c = true
                       \/ c = underscore) s.
Proof.
  rewrite forallb_forall, Forall_forall.
  split; intros H c Hc; specialize (H c Hc); unfold isSnakeChar in *.
  - rewrite !orb_true_iff, N.eqb_eq in H; tauto.
  - rewrite !orb_true_iff, N.eqb_eq; tauto.
Qed.

Lemma isCamelCase_cons (c : codeUnit) (rest : jsstring) :
  isCamelCase (c :: rest) = isLower c && forallb isAlnum rest.
Proof.
  unfold isCamelCase; simpl.
  destruct (isLower c); simpl; [|reflexivity].
  destruct (forallb isAlnum rest); reflexivity.
Qed.

Lemma test_doubleUnderscore_spec (s : jsstring) :
  test_doubleUnderscore s = true
  <-> exists pre post, s = pre ++ underscore :: underscore :: post.
Proof.
  induction s as [|c1 s IH].
  - simpl; split; [discriminate|].
    intros (pre & post & E); destruct pre; discriminate.
  - destruct s as [|c2 s].
    + simpl; split; [discriminate|].
      intros (pre & post & E); destruct pre as [|? [|? ?]]; discriminate.
    + change (test_doubleUnderscore (c1 :: c2 :: s))
        with (((c1 =? underscore) && (c2 =? underscore))
              || test_doubleUnderscore (c2 :: s)).
      rewrite orb_true_iff, andb_true_iff, !N.eqb_eq, IH. split.
      * intros [[-> ->] | (pre & post & E)].
        -- exists [], s; reflexivity.
        -- exists (c1 :: pre), post; rewrite E; reflexivity.
      * intros (pre & post & E). destruct pre as [|x pre]; simpl in E.
        -- injection E as -> -> _; auto.
        -- injection E as _ E; right; eauto.
Qed.

Lemma endsWith_singleton (s : jsstring) (u : codeUnit) :
  endsWith s [u] = true <-> exists pre, s = pre ++ [u].
Proof.
  unfold endsWith. rewrite andb_true_iff, strictEq_spec, Nat.leb_le. split.
  - intros [_ E]. exists (firstn (List.length s - 1) s).
    rewrite <- E. symmetry; apply firstn_skipn.
  - intros (pre & ->). rewrite length_app; simpl. split; [lia|].
    replace (List.length pre + 1 - 1)%nat with (List.length pre + 0)%nat by lia.
    rewrite skipn_app, Nat.add_0_r, skipn_all.
    replace (List.length pre - List.length pre)%nat with 0%nat by lia.
    reflexivity.
Qed.

Lemma isSnakeCase_cons (c : codeUnit) (rest : jsstring) :
  isSnakeCase (c :: rest)
  = isLower c && forallb isSnakeChar rest
    && negb (test_doubleUnderscore (c :: rest))
    && negb (endsWith (c :: rest) [underscore]).
Proof.
  unfold isSnakeCase.
  change (falsy (c :: rest) || (List.length (c :: rest) =? 0)%nat) with false.
  change (test_startsLower (c :: rest)) with (isLower c).
  change (test_snakeShape (c :: rest))
    with (isLower c && forallb isSnakeChar rest).
  cbv iota.
  destruct (isLower c); [|reflexivity].
  destruct (forallb isSnakeChar rest); [|reflexivity].
  cbn [negb andb].
  destruct (test_doubleUnderscore (c :: rest)); [reflexivity|].
  destruct (endsWith (c :: rest) [underscore]); reflexivity.
Qed.

(** C5: [isCamelCase s] holds exactly when [s] is not empty, starts with a
    lowercase ASCII letter and is made of ASCII letters and digits only; an
    uppercase letter may stand anywhere but at position 0. *)
Theorem isCamelCase_characterisation :
  (forall s : jsstring,
     isCamelCase s = true
     <-> s <> []
         /\ (exists c rest, s = c :: rest /\ isLower c = true)
         /\ Forall (fun c => isLetter c = true \/ isDigit c = true) s)
  /\ (forall (pre post : jsstring) (u : codeUnit),
        pre <> [] -> isUpper u = true ->
        isCamelCase (pre ++ post) = true ->
        isCamelCase (pre ++ u :: post) = true)
  /\ (forall (u : codeUnit) (rest : jsstring),
        isUpper u = true -> isCamelCase (u :: rest) = false).
Proof.
  split; [|split].
  - intros [|c rest].
    + split; [discriminate|]. intros [H _]; congruence.
    + rewrite isCamelCase_cons, andb_true_iff, forallb_alnum_Forall. split.
      * intros [Hc Hrest]. split; [discriminate|]. split; [eauto|].
        constructor; [|exact Hrest].
        left; unfold isLetter; rewrite Hc; reflexivity.
      * intros (_ & (c' & rest' & E & Hc) & Hall).
        injection E as <- <-. inversion Hall; auto.
  - intros [|c pre] post u Hne Hu; [congruence|]. simpl.
    rewrite !isCamelCase_cons, !andb_true_iff, !forallb_app. simpl.
    rewrite !andb_true_iff. intros (Hc & Hpre & Hpost).
    repeat split; auto. unfold isAlnum; rewrite Hu.
    destruct (isLower u); reflexivity.
  - intros u rest Hu. rewrite isCamelCase_cons, (isUpper_not_lower u Hu).
    reflexivity.
Qed.

(** C5 at [userId]: accepted; with an uppercase letter put in after its
    first letter, still accepted; with an uppercase first letter,
    rejected. *)
Lemma isCamelCase_characterisation_witness :
  (isCamelCase (js "userId") = true
   <-> js "userId" <> []
       /\ (exists c rest, js "userId" = c :: rest /\ isLower c = true)
       /\ Forall (fun c => isLetter c = true \/ isDigit c = true)
            (js "userId"))
  /\ isCamelCase (js "u" ++ 88 :: js "serId") = true
  /\ isCamelCase (85 :: js "serId") = false.
Proof.
  split; [|split].
  - exact (proj1 isCamelCase_characterisation (js "userId")).
  - apply (proj1 (proj2 isCamelCase_characterisation) (js "u") (js "serId") 88);
      [discriminate | reflexivity | reflexivity].
  - apply (proj2 (proj2 isCamelCase_characterisation) 85 (js "serId")).
    reflexivity.
Defined.

(** C6: [isSnakeCase s] holds exactly when [s] is not empty, starts with a
    lowercase ASCII letter, is made of lowercase ASCII letters, digits and
    underscores, has no two underscores in a row and does not end with an
    underscore; the empty string is rejected. *)
Theorem isSnakeCase_characterisation :
  (forall s : jsstring,
     isSnakeCase s = true
     <-> s <> []
         /\ (exists c rest, s = c :: rest /\ isLower c = true)
         /\ Forall (fun c => isLower c = true \/ isDigit c = true
                             \/ c = underscore) s
         /\ ~ (exists pre post, s = pre ++ underscore :: underscore :: post)
         /\ ~ (exists pre, s = pre ++ [underscore]))
  /\ isSnakeCase [] = false.
Proof.
  split; [|reflexivity].
  intros [|c rest].
  - split; [discriminate|]. intros [H _]; congruence.
  - rewrite isSnakeCase_cons, !andb_true_iff, !negb_true_iff.
    rewrite forallb_snake_Forall.
    rewrite <- !not_true_iff_false.
    rewrite test_doubleUnderscore_spec, endsWith_singleton. split.
    + intros [[[Hc Hrest] Hdd] Hend].
      split; [discriminate|]. split; [eauto|]. split; [|tauto].
      constructor; auto.
    + intros (_ & (c' & rest' & E & Hc) & Hall & Hdd & Hend).
      injection E as <- <-. inversion Hall; subst. tauto.
Qed.

(** C6 at [user_id], which is accepted. *)
Lemma isSnakeCase_characterisation_witness :
  js "user_id" <> []
  /\ (exists c rest, js "user_id" = c :: rest /\ isLower c = true)
  /\ Forall (fun c => isLower c = true \/ isDigit c = true
                      \/ c = underscore) (js "user_id")
  /\ ~ (exists pre post,
          js "user_id" = pre ++ underscore :: underscore :: post)
  /\ ~ (exists pre, js "user_id" = pre ++ [underscore]).
Proof.
  exact (proj1 (proj1 isSnakeCase_characterisation (js "user_id")) eq_refl).
Defined.

(** ** The two passes of [camelToSnake] against the one-pass wording *)

Lemma replaceLowerUpper_cons2 c1 c2 rest :
  replaceLowerUpper (c1 :: c2 :: rest)
  = if isLowerOrDigit c1 && isUpper c2
    then c1 :: underscore :: c2 :: replaceLowerUpper rest
    else c1 :: replaceLowerUpper (c2 :: rest).
Proof. reflexivity. Qed.

Lemma replaceLowerUpper_positional_aux (n : nat) :
  forall (s : jsstring) (c : codeUnit),
    (List.length s <= n)%nat ->
    replaceLowerUpper (c :: s) = c :: insertLowerUpper (Some c) s.
Proof.
  induction n as [|n IH]; intros [|c2 rest] c Hlen; simpl in Hlen;
    try reflexivity; try lia.
  rewrite replaceLowerUpper_cons2. cbn [insertLowerUpper boundaryLowerUpper].
  destruct (isLowerOrDigit c && isUpper c2) eqn:Hb; cbn [app].
  - apply andb_true_iff in Hb as [_ Hup].
    do 3 f_equal. destruct rest as [|c3 rest3]; [reflexivity|].
    rewrite IH by (simpl in *; lia).
    cbn [insertLowerUpper boundaryLowerUpper].
    rewrite (isUpper_not_lowerOrDigit c2 Hup). reflexivity.
  - f_equal. apply IH; lia.
Qed.

Lemma replaceLowerUpper_positional (s : jsstring) :
  replaceLowerUpper s = insertLowerUpper None s.
Proof.
  destruct s as [|c rest]; [reflexivity|].
  apply (replaceLowerUpper_positional_aux (List.length rest)); lia.
Qed.

Lemma replaceAcronym_cons3 c1 c2 c3 rest :
  replaceAcronym (c1 :: c2 :: c3 :: rest)
  = if isUpper c1 && isUpper c2 && isLower c3
    then c1 :: underscore :: c2 :: c3 :: replaceAcronym rest
    else c1 :: replaceAcronym (c2 :: c3 :: rest).
Proof. reflexivity. Qed.

Lemma replaceAcronym_skip c s :
  isUpper c = false -> replaceAcronym (c :: s) = c :: replaceAcronym s.
Proof.
  intros Hc. destruct s as [|c2 [|c3 rest]]; try reflexivity.
  rewrite replaceAcronym_cons3, Hc. reflexivity.
Qed.

Lemma replaceAcronym_no_match c1 c2 s :
  isUpper c1 && isUpper c2
  && match s with c3 :: _ => isLower c3 | [] => false end = false ->
  replaceAcronym (c1 :: c2 :: s) = c1 :: replaceAcronym (c2 :: s).
Proof.
  destruct s as [|c3 rest]; [reflexivity|].
  intros H. rewrite replaceAcronym_cons3, H. reflexivity.
Qed.

(** After a code unit that is not uppercase the second pass starts afresh. *)
Lemma replaceAcronym_after_non_upper (n : nat)
    (IH : forall (s : jsstring) (c : codeUnit),
        (List.length s <= n)%nat ->
        replaceAcronym (c :: insertLowerUpper (Some c) s)
        = c :: insertBoundaries (Some c) s) :
  forall (s : jsstring) (p : codeUnit),
    (List.length s <= S n)%nat -> isUpper p = false ->
    replaceAcronym (insertLowerUpper (Some p) s) = insertBoundaries (Some p) s.
Proof.
  intros [|d r] p Hlen Hp; [reflexivity|].
  cbn [insertLowerUpper insertBoundaries boundaryLowerUpper boundaryBefore].
  rewrite Hp. cbn [andb]. rewrite orb_false_r.
  destruct (isLowerOrDigit p && isUpper d); cbn [app].
  - rewrite replaceAcronym_skip by reflexivity.
    rewrite IH by (simpl in Hlen; lia). reflexivity.
  - apply IH. simpl in Hlen; lia.
Qed.

Lemma camelToSnake_passes_aux (n : nat) :
  forall (s : jsstring) (c : codeUnit),
    (List.length s <= n)%nat ->
    replaceAcronym (c :: insertLowerUpper (Some c) s)
    = c :: insertBoundaries (Some c) s.
Proof.
  induction n as [|n IH]; intros [|c2 rest] c Hlen; simpl in Hlen;
    try reflexivity; try lia.
  cbn [insertLowerUpper insertBoundaries boundaryLowerUpper boundaryBefore].
  destruct (isLowerOrDigit c && isUpper c2) eqn:Hb1; cbn [orb app].
  - (* rule (a) between c and c2 *)
    apply andb_true_iff in Hb1 as [Hc _].
    rewrite replaceAcronym_skip by (apply isLowerOrDigit_not_upper, Hc).
    rewrite replaceAcronym_skip by reflexivity.
    rewrite IH by lia. reflexivity.
  - destruct rest as [|c3 rest3].
    + rewrite !andb_false_r. reflexivity.
    + cbn iota.
      destruct (isUpper c && isUpper c2 && isLower c3) eqn:Hb2; cbn [app].
      * (* rule (b): c and c2 uppercase, c3 lowercase *)
        cbn [insertLowerUpper insertBoundaries boundaryLowerUpper
             boundaryBefore].
        apply andb_true_iff in Hb2 as [Hb2 Hc3].
        apply andb_true_iff in Hb2 as [Hc Hc2].
        assert (Hc3u : isUpper c3 = false)
          by (apply isLowerOrDigit_not_upper, isLower_lowerOrDigit, Hc3).
        rewrite (isUpper_not_lowerOrDigit c2 Hc2), Hc3u. cbn [andb orb app].
        rewrite !andb_false_r. cbn [app].
        rewrite replaceAcronym_cons3, Hc, Hc2, Hc3. cbn [andb].
        rewrite (replaceAcronym_after_non_upper n IH)
          by (simpl in *; auto; lia).
        reflexivity.
      * rewrite replaceAcronym_no_match.
        -- rewrite IH by (simpl in *; lia). reflexivity.
        -- cbn [insertLowerUpper boundaryLowerUpper].
           destruct (isLowerOrDigit c2 && isUpper c3); cbn [app];
             [rewrite andb_false_r; reflexivity | exact Hb2].
Qed.

Lemma camelToSnake_passes (s : jsstring) :
  replaceAcronym (replaceLowerUpper s) = insertBoundaries None s.
Proof.
  rewrite replaceLowerUpper_positional.
  destruct s as [|c rest]; [reflexivity|].
  apply (camelToSnake_passes_aux (List.length rest)); lia.
Qed.

Lemma insertBoundaries_ascii (s : jsstring) :
  forall prev, forallb isAscii s = true ->
  forallb isAscii (insertBoundaries prev s) = true.
Proof.
  induction s as [|c rest IH]; intros prev H; [reflexivity|].
  simpl in H. apply andb_true_iff in H as [Hc Hrest].
  cbn [insertBoundaries]. rewrite forallb_app. cbn [forallb].
  rewrite Hc, (IH _ Hrest).
  destruct (boundaryBefore prev c rest); reflexivity.
Qed.

Section Converters.
Context {R : JSRuntime}.

Lemma toLowerCase_nil : toLowerCase [] = [].
Proof. apply (toLowerCase_ascii []); reflexivity. Qed.

Lemma camelToSnake_boundaries (s : jsstring) :
  camelToSnake s = toLowerCase (insertBoundaries None s).
Proof.
  unfold camelToSnake. destruct s as [|c rest].
  - symmetry; apply toLowerCase_nil.
  - cbn [falsy]. rewrite camelToSnake_passes. reflexivity.
Qed.

Lemma camelToSnake_ascii (s : jsstring) :
  forallb isAscii s = true ->
  camelToSnake s = List.map lowerChar (insertBoundaries None s).
Proof.
  intros H. rewrite camelToSnake_boundaries.
  apply toLowerCase_ascii, insertBoundaries_ascii, H.
Qed.

(** C1: [camelToSnake] is the two-rule boundary algorithm: an underscore
    between a lowercase letter or digit and an uppercase letter, an
    underscore between an uppercase letter and an uppercase letter that a
    lowercase letter follows, then the whole lowercased; with the values
    the specification lists. *)
Theorem camelToSnake_two_rules :
  (forall s : jsstring,
     camelToSnake s = toLowerCase (insertBoundaries None s))
  /\ camelToSnake (js "userId") = js "user_id"
  /\ camelToSnake (js "userID") = js "user_id"
  /\ camelToSnake (js "userIDToken") = js "user_id_token"
  /\ camelToSnake (js "HTTPResponse") = js "http_response"
  /\ camelToSnake (js "parseHTMLString") = js "parse_html_string"
  /\ camelToSnake (js "user123Id") = js "user123_id"
  /\ camelToSnake (js "") = js "".
Proof.
  split; [exact camelToSnake_boundaries|].
  repeat split; rewrite camelToSnake_ascii by reflexivity; reflexivity.
Qed.

Lemma validateMapping_spec (camelName snakeName : jsstring) :
  validateMapping camelName snakeName = true
  <-> camelToSnake camelName = snakeName.
Proof. unfold validateMapping. apply strictEq_spec. Qed.

(** C8: [validateMapping camelKey snakeValue] holds exactly when
    [camelToSnake camelKey] is the string [snakeValue]; neither argument is
    normalised or classified. *)
Theorem validateMapping_exact :
  (forall camelKey snakeValue : jsstring,
     validateMapping camelKey snakeValue = true
     <-> camelToSnake camelKey = snakeValue)
  /\ validateMapping (js "userId") (js "user_id") = true
  /\ validateMapping (js "userId") (js "userid") = false
  /\ validateMapping (js "userIDToken") (js "user_id_token") = true.
Proof.
  split; [exact validateMapping_spec|].
  unfold validateMapping.
  repeat split; rewrite camelToSnake_ascii by reflexivity; reflexivity.
Qed.

(** ** [snakeToCamel] *)

Lemma toUpperCase_lowerOrDigit (c : codeUnit) :
  isLowerOrDigit c = true -> toUpperCase [c] = [upperChar c].
Proof.
  intros H. apply (toUpperCase_ascii [c]). cbn [forallb].
  rewrite andb_true_r. revert H. by_cases_on_classes.
Qed.

Lemma replaceUnderscoreChar_cons2 c1 c2 rest :
  replaceUnderscoreChar (c1 :: c2 :: rest)
  = if (c1 =? underscore) && isLowerOrDigit c2
    then toUpperCase [c2] ++ replaceUnderscoreChar rest
    else c1 :: replaceUnderscoreChar (c2 :: rest).
Proof. reflexivity. Qed.

(** The scan from left to right removes the same underscores and raises
    the same code units as the description by positions, since no two
    matches of [_([a-z0-9])] can share a code unit. *)
Lemma replaceUnderscoreChar_positional_aux (n : nat) :
  forall (s : jsstring) (prev : option codeUnit),
    (List.length s <= n)%nat ->
    match prev, s with
    | Some p, c :: _ => (p =? underscore) && isLowerOrDigit c = false
    | _, _ => True
    end ->
    replaceUnderscoreChar s = camelize isLowerOrDigit prev s.
Proof.
  induction n as [|n IH]; intros [|c1 [|c2 rest]] prev Hlen Hprev;
    simpl in Hlen; try reflexivity; try lia.
  - cbn [camelize]. unfold camelizeAt. rewrite andb_false_r.
    destruct prev as [p|]; [rewrite Hprev|]; reflexivity.
  - rewrite replaceUnderscoreChar_cons2.
    change (camelize isLowerOrDigit prev (c1 :: c2 :: rest))
      with (camelizeAt isLowerOrDigit prev c1 (c2 :: rest)
            ++ camelize isLowerOrDigit (Some c1) (c2 :: rest)).
    destruct ((c1 =? underscore) && isLowerOrDigit c2) eqn:Hm.
    + unfold camelizeAt at 1. rewrite Hm. cbn [app].
      apply andb_true_iff in Hm as [Hc1 Hc2].
      rewrite (toUpperCase_lowerOrDigit c2 Hc2).
      cbn [camelize]. unfold camelizeAt at 1. rewrite Hc1, Hc2.
      assert (Hc2u : (c2 =? underscore) = false)
        by (revert Hc2; by_cases_on_classes).
      rewrite Hc2u. cbn [andb app]. f_equal.
      apply IH; [lia|]. destruct rest; [exact I|].
      rewrite Hc2u; reflexivity.
    + unfold camelizeAt at 1. rewrite Hm.
      replace (match prev with
               | Some p => (p =? underscore) && isLowerOrDigit c1
               | None => false
               end) with false
        by (destruct prev; [rewrite Hprev|]; reflexivity).
      cbn [app]. f_equal. apply IH; [simpl; lia | exact Hm].
Qed.

Lemma replaceUnderscoreChar_positional (s : jsstring) :
  replaceUnderscoreChar s = camelize isLowerOrDigit None s.
Proof.
  apply (replaceUnderscoreChar_positional_aux (List.length s));
    [lia | destruct s; exact I].
Qed.

Lemma snakeToCamel_camelize (s : jsstring) :
  snakeToCamel s = camelize isLowerOrDigit None (toLowerCase s).
Proof.
  unfold snakeToCamel. destruct s as [|c rest].
  - rewrite toLowerCase_nil. reflexivity.
  - cbn [falsy]. apply replaceUnderscoreChar_positional.
Qed.

Lemma snakeToCamel_ascii (s : jsstring) :
  forallb isAscii s = true ->
  snakeToCamel s = camelize isLowerOrDigit None (List.map lowerChar s).
Proof.
  intros H. rewrite snakeToCamel_camelize, (toLowerCase_ascii s H).
  reflexivity.
Qed.

(** C7, as amended: [snakeToCamel] lowercases the whole input, then
    removes every underscore that a lowercase ASCII letter or a digit
    follows and uppercases that code unit; a digit is left as it is. *)
Theorem snakeToCamel_letter_or_digit :
  (forall s : jsstring,
     snakeToCamel s = camelize isLowerOrDigit None (toLowerCase s))
  /\ (forall d : codeUnit, isDigit d = true -> upperChar d = d)
  /\ snakeToCamel (js "user_id") = js "userId"
  /\ snakeToCamel (js "user_123_id") = js "user123Id"
  /\ snakeToCamel (js "") = js "".
Proof.
  split; [exact snakeToCamel_camelize|].
  split; [intros d; by_cases_on_classes|].
  repeat split; rewrite snakeToCamel_ascii by reflexivity; reflexivity.
Qed.

End Converters.

(** C1 on the ASCII runtime, at [parseHTMLString]. *)
Lemma camelToSnake_two_rules_witness :
  camelToSnake (R := asciiRuntime) (js "parseHTMLString")
  = toLowerCase (insertBoundaries None (js "parseHTMLString")).
Proof.
  exact (proj1 (@camelToSnake_two_rules asciiRuntime) (js "parseHTMLString")).
Defined.

(** C8 on the ASCII runtime, at [userIDToken] and [user_id_token]. *)
Lemma validateMapping_exact_witness :
  validateMapping (R := asciiRuntime) (js "userIDToken") (js "user_id_token")
  = true
  <-> camelToSnake (R := asciiRuntime) (js "userIDToken")
      = js "user_id_token".
Proof.
  exact (proj1 (@validateMapping_exact asciiRuntime) (js "userIDToken")
           (js "user_id_token")).
Defined.

(** C7 on the ASCII runtime, at [user__id]: the first underscore stays. *)
Lemma snakeToCamel_letter_or_digit_witness :
  snakeToCamel (R := asciiRuntime) (js "user__id")
  = camelize isLowerOrDigit None (toLowerCase (js "user__id")).
Proof.
  exact (proj1 (@snakeToCamel_letter_or_digit asciiRuntime) (js "user__id")).
Defined.

(** C7, as the specification words it, fails on [a_-b]: the underscore is
    followed by a character, and [snakeToCamel] keeps it, where removing the
    underscore in front of any character gives [a-b]. *)
Lemma snakeToCamel_keeps_underscore :
  snakeToCamel (R := asciiRuntime) (js "a_-b") = js "a_-b"
  /\ camelize anyChar None (toLowerCase (js "a_-b")) = js "a-b"
  /\ ~ (forall (R : JSRuntime) (s : jsstring),
          snakeToCamel s = camelize anyChar None (toLowerCase s)).
Proof.
  split; [reflexivity|]. split; [reflexivity|].
  intros H. specialize (H asciiRuntime (js "a_-b")). discriminate H.
Qed.

(** ** The converters between the two accepted domains *)

Lemma endsWith_one (c u : codeUnit) : endsWith [c] [u] = (c =? u).
Proof. unfold endsWith; simpl. apply andb_true_r. Qed.

Lemma endsWith_cons_cons (q c u : codeUnit) (s : jsstring) :
  endsWith (q :: c :: s) [u] = endsWith (c :: s) [u].
Proof.
  unfold endsWith. cbn [List.length].
  replace (S (S (List.length s)) - 1)%nat with (S (List.length s)) by lia.
  replace (S (List.length s) - 1)%nat with (List.length s) by lia.
  reflexivity.
Qed.

Lemma test_doubleUnderscore_cons2 c1 c2 s :
  test_doubleUnderscore (c1 :: c2 :: s)
  = ((c1 =? underscore) && (c2 =? underscore))
    || test_doubleUnderscore (c2 :: s).
Proof. reflexivity. Qed.

Lemma boundaryBefore_upper prev c next :
  boundaryBefore prev c next = true -> isUpper c = true.
Proof.
  destruct prev as [p|]; [|discriminate]. unfold boundaryBefore.
  destruct (isUpper c); [reflexivity|].
  rewrite !andb_false_r. discriminate.
Qed.

(** The lowercased output of the boundary pass on letters and digits, after
    a code unit [q] that is no underscore: snake characters, no two
    underscores in a row, no underscore at the end. *)
Lemma boundaries_snake (s : jsstring) :
  forall (prev : option codeUnit) (q : codeUnit),
    forallb isAlnum s = true -> (q =? underscore) = false ->
    let t := List.map lowerChar (insertBoundaries prev s) in
    forallb isSnakeChar t = true
    /\ test_doubleUnderscore (q :: t) = false
    /\ endsWith (q :: t) [underscore] = false.
Proof.
  induction s as [|c rest IH]; intros prev q Hs Hq; cbn zeta.
  - cbn [insertBoundaries List.map forallb].
    rewrite endsWith_one. auto.
  - cbn [forallb] in Hs. apply andb_true_iff in Hs as [Hc Hrest].
    assert (Hlc : (lowerChar c =? underscore) = false)
      by (revert Hc; by_cases_on_classes).
    assert (Hsn : isSnakeChar (lowerChar c) = true)
      by (revert Hc; by_cases_on_classes).
    destruct (IH (Some c) (lowerChar c) Hrest Hlc) as (Ha & Hb & He).
    cbn [insertBoundaries].
    destruct (boundaryBefore prev c rest); cbn [app List.map forallb].
    + rewrite !test_doubleUnderscore_cons2, !endsWith_cons_cons.
      rewrite Hq, Hlc, Hsn, Ha, Hb, He, andb_false_r. auto.
    + rewrite !test_doubleUnderscore_cons2, !endsWith_cons_cons.
      rewrite Hq, Hsn, Ha, Hb, He. auto.
Qed.

(** On snake_case input every underscore is followed by a letter or a
    digit, so all of them go. *)
Lemma camelize_snake (s : jsstring) :
  forall p : codeUnit,
    forallb isSnakeChar s = true ->
    test_doubleUnderscore (p :: s) = false ->
    endsWith (p :: s) [underscore] = false ->
    forallb isAlnum (camelize isLowerOrDigit (Some p) s) = true.
Proof.
  induction s as [|c rest IH]; intros p Hs Hdd Hend; [reflexivity|].
  cbn [forallb] in Hs. apply andb_true_iff in Hs as [Hc Hrest].
  rewrite test_doubleUnderscore_cons2 in Hdd.
  apply orb_false_iff in Hdd as [Hpc Hdd].
  rewrite endsWith_cons_cons in Hend.
  cbn [camelize]. rewrite forallb_app, (IH c Hrest Hdd Hend), andb_true_r.
  unfold camelizeAt.
  destruct (c =? underscore) eqn:Hcu.
  - (* an underscore: something follows, and it is no underscore *)
    destruct rest as [|d rest'].
    + rewrite endsWith_one, Hcu in Hend. discriminate.
    + rewrite test_doubleUnderscore_cons2, Hcu in Hdd.
      apply orb_false_iff in Hdd as [Hd _]. cbn [andb] in Hd.
      cbn [forallb] in Hrest. apply andb_true_iff in Hrest as [Hdc _].
      replace (isLowerOrDigit d) with true
        by (revert Hdc Hd; by_cases_on_classes).
      reflexivity.
  - cbn [andb].
    assert (Hld : isLowerOrDigit c = true)
      by (revert Hc Hcu; by_cases_on_classes).
    destruct ((p =? underscore) && isLowerOrDigit c); cbn [forallb];
      rewrite andb_true_r.
    + apply upperChar_lowerOrDigit, Hld.
    + revert Hld; by_cases_on_classes.
Qed.

Lemma map_lowerChar_snake (s : jsstring) :
  forallb isSnakeChar s = true -> List.map lowerChar s = s.
Proof.
  induction s as [|c rest IH]; [reflexivity|]. cbn [forallb List.map].
  intros H. apply andb_true_iff in H as [Hc Hrest].
  rewrite (isSnakeChar_lower_fixed c Hc), (IH Hrest). reflexivity.
Qed.

Lemma forallb_impl (p q : codeUnit -> bool) (s : jsstring) :
  (forall c, p c = true -> q c = true) ->
  forallb p s = true -> forallb q s = true.
Proof.
  intros Hpq. rewrite !forallb_forall. auto.
Qed.

Section Domains.
Context {R : JSRuntime}.

Lemma camelToSnake_of_camel (c : codeUnit) (rest : jsstring) :
  isLower c = true -> forallb isAlnum rest = true ->
  camelToSnake (c :: rest)
  = c :: List.map lowerChar (insertBoundaries (Some c) rest).
Proof.
  intros Hc Hrest. rewrite camelToSnake_ascii.
  - cbn [insertBoundaries boundaryBefore app List.map].
    rewrite lowerChar_fixed
      by (apply isLowerOrDigit_not_upper, isLower_lowerOrDigit, Hc).
    reflexivity.
  - cbn [forallb]. rewrite (forallb_impl _ _ _ isAlnum_ascii Hrest).
    rewrite andb_true_r. revert Hc. by_cases_on_classes.
Qed.

(** C9: [camelToSnake] maps what [isCamelCase] accepts to what
    [isSnakeCase] accepts, and [snakeToCamel] maps what [isSnakeCase]
    accepts to what [isCamelCase] accepts. *)
Theorem converters_between_domains :
  (forall s : jsstring,
     isCamelCase s = true -> isSnakeCase (camelToSnake s) = true)
  /\ (forall s : jsstring,
        isSnakeCase s = true -> isCamelCase (snakeToCamel s) = true).
Proof.
  split; intros [|c rest] H; try discriminate H.
  - rewrite isCamelCase_cons in H. apply andb_true_iff in H as [Hc Hrest].
    rewrite (camelToSnake_of_camel c rest Hc Hrest), isSnakeCase_cons.
    assert (Hcu : (c =? underscore) = false)
      by (revert Hc; by_cases_on_classes).
    destruct (boundaries_snake rest (Some c) c Hrest Hcu) as (Ha & Hb & He).
    rewrite Hc, Ha, Hb, He. reflexivity.
  - rewrite isSnakeCase_cons in H.
    apply andb_true_iff in H as [H Hend].
    apply andb_true_iff in H as [H Hdd].
    apply andb_true_iff in H as [Hc Hrest].
    apply negb_true_iff in Hend, Hdd.
    assert (Hall : forallb isSnakeChar (c :: rest) = true).
    { cbn [forallb]. rewrite Hrest, andb_true_r.
      revert Hc; by_cases_on_classes. }
    rewrite snakeToCamel_ascii
      by (exact (forallb_impl _ _ _ isSnakeChar_ascii Hall)).
    rewrite (map_lowerChar_snake _ Hall).
    cbn [camelize]. unfold camelizeAt at 1.
    replace (c =? underscore) with false
      by (revert Hc; by_cases_on_classes).
    cbn [andb app]. rewrite isCamelCase_cons, Hc.
    apply (camelize_snake rest c Hrest Hdd Hend).
Qed.

End Domains.

(** C9 at [userIDToken] and at [user_123_id]. *)
Lemma converters_between_domains_witness :
  (isCamelCase (js "userIDToken") = true
   /\ isSnakeCase (camelToSnake (R := asciiRuntime) (js "userIDToken")) = true)
  /\ (isSnakeCase (js "user_123_id") = true
      /\ isCamelCase (snakeToCamel (R := asciiRuntime) (js "user_123_id"))
         = true).
Proof.
  split; (split; [reflexivity|]).
  - apply (proj1 (@converters_between_domains asciiRuntime)). reflexivity.
  - apply (proj2 (@converters_between_domains asciiRuntime)). reflexivity.
Defined.

(** ** Stability of [camelToSnake] on the outputs of [snakeToCamel] *)

Lemma camelize_boundaries (s : jsstring) :
  forall prev q : option codeUnit,
    forallb isAlnum s = true ->
    match q with Some x => (x =? underscore) = false | None => True end ->
    camelize isLowerOrDigit q (List.map lowerChar (insertBoundaries prev s))
    = recase prev s.
Proof.
  induction s as [|c rest IH]; intros prev q Hs Hq; [reflexivity|].
  cbn [forallb] in Hs. apply andb_true_iff in Hs as [Hc Hrest].
  assert (Hlc : (lowerChar c =? underscore) = false)
    by (revert Hc; by_cases_on_classes).
  assert (Hld : isLowerOrDigit (lowerChar c) = true)
    by (apply lowerChar_alnum, Hc).
  cbn [insertBoundaries recase].
  destruct (boundaryBefore prev c rest) eqn:Hb; cbn [app List.map camelize].
  - unfold camelizeAt at 1 2.
    change (lowerChar underscore) with underscore.
    rewrite N.eqb_refl, Hld, Hlc. cbn [andb app].
    rewrite (proj2 (lowerChar_upper c (boundaryBefore_upper _ _ _ Hb))).
    f_equal. apply IH; assumption.
  - unfold camelizeAt at 1. rewrite Hlc. cbn [andb].
    replace (match q with
             | Some p => (p =? underscore) && isLowerOrDigit (lowerChar c)
             | None => false
             end) with false
      by (destruct q; [rewrite Hq|]; reflexivity).
    cbn [app]. f_equal. apply IH; assumption.
Qed.

Lemma recase_alnum (s : jsstring) :
  forall prev, forallb isAlnum s = true ->
  forallb isAlnum (recase prev s) = true.
Proof.
  induction s as [|c rest IH]; intros prev Hs; [reflexivity|].
  cbn [forallb] in Hs. apply andb_true_iff in Hs as [Hc Hrest].
  cbn [recase forallb]. rewrite (IH _ Hrest), andb_true_r.
  destruct (boundaryBefore prev c rest); [exact Hc|].
  revert Hc; by_cases_on_classes.
Qed.

Lemma recase_head_lower prev n rest :
  isLower n = true ->
  match recase prev (n :: rest) with
  | x :: _ => isLower x
  | [] => false
  end = true.
Proof.
  intros Hn. cbn [recase].
  destruct (boundaryBefore prev n rest); [exact Hn|].
  rewrite lowerChar_fixed; [exact Hn|].
  apply isLowerOrDigit_not_upper, isLower_lowerOrDigit, Hn.
Qed.

(** The boundaries of [recase prev s] are those of [s]. *)
Lemma boundaryBefore_recase prev prev' c rest :
  recased prev prev' ->
  boundaryBefore prev'
    (if boundaryBefore prev c rest then c else lowerChar c)
    (recase (Some c) rest)
  = boundaryBefore prev c rest.
Proof.
  intros Hrel. destruct (boundaryBefore prev c rest) eqn:Hb.
  - pose proof (boundaryBefore_upper _ _ _ Hb) as Hc.
    destruct prev as [p|]; [|discriminate Hb].
    destruct prev' as [p'|]; [|contradiction].
    destruct Hrel as [Hp Hp']. unfold boundaryBefore in *. rewrite Hc in *.
    rewrite !andb_true_r in *.
    destruct Hp' as [-> | ->].
    + apply orb_true_iff in Hb as [Hb | Hb]; [rewrite Hb; reflexivity|].
      apply andb_true_iff in Hb as [Hpu Hn]. rewrite Hpu.
      destruct rest as [|n rest']; [discriminate Hn|].
      rewrite (recase_head_lower (Some c) n rest' Hn). apply orb_true_r.
    + rewrite (lowerChar_alnum p Hp). reflexivity.
  - destruct prev' as [p'|]; [|reflexivity]. unfold boundaryBefore.
    rewrite lowerChar_not_upper, !andb_false_r. reflexivity.
Qed.

Lemma boundaries_recase (s : jsstring) :
  forall prev prev' : option codeUnit,
    forallb isAlnum s = true -> recased prev prev' ->
    List.map lowerChar (insertBoundaries prev' (recase prev s))
    = List.map lowerChar (insertBoundaries prev s).
Proof.
  induction s as [|c rest IH]; intros prev prev' Hs Hrel; [reflexivity|].
  cbn [forallb] in Hs. apply andb_true_iff in Hs as [Hc Hrest].
  cbn [recase insertBoundaries].
  rewrite (boundaryBefore_recase prev prev' c rest Hrel).
  rewrite !map_app. cbn [List.map]. f_equal.
  f_equal.
  - destruct (boundaryBefore prev c rest); [reflexivity|apply lowerChar_idem].
  - apply IH; [exact Hrest|]. split; [exact Hc|].
    destruct (boundaryBefore prev c rest); auto.
Qed.

Lemma map_lowerChar_idem (s : jsstring) :
  List.map lowerChar (List.map lowerChar s) = List.map lowerChar s.
Proof.
  rewrite map_map. apply map_ext. intros c; apply lowerChar_idem.
Qed.

Lemma map_lowerChar_ascii (s : jsstring) :
  forallb isAscii s = true -> forallb isAscii (List.map lowerChar s) = true.
Proof.
  rewrite !forallb_forall. intros H c Hc.
  apply in_map_iff in Hc as (x & <- & Hx). specialize (H x Hx).
  revert H; by_cases_on_classes.
Qed.

Section Stability.
Context {R : JSRuntime}.

Lemma snakeToCamel_camelToSnake (s : jsstring) :
  forallb isAlnum s = true ->
  snakeToCamel (camelToSnake s) = recase None s.
Proof.
  intros Hs.
  assert (Ha : forallb isAscii s = true)
    by exact (forallb_impl _ _ _ isAlnum_ascii Hs).
  rewrite (camelToSnake_ascii s Ha).
  rewrite snakeToCamel_ascii
    by (apply map_lowerChar_ascii, insertBoundaries_ascii, Ha).
  rewrite map_lowerChar_idem.
  apply camelize_boundaries; [exact Hs | exact I].
Qed.

(** C2: on what [isCamelCase] accepts, converting to snake_case, back to
    camelCase and to snake_case again gives the first snake_case string;
    the camelCase string in between need not be the input, which
    [userID] shows. *)
Theorem camelToSnake_stable_on_round_trip :
  (forall s : jsstring,
     isCamelCase s = true ->
     camelToSnake (snakeToCamel (camelToSnake s)) = camelToSnake s)
  /\ (isCamelCase (js "userID") = true
      /\ snakeToCamel (camelToSnake (js "userID")) = js "userId"
      /\ js "userId" <> js "userID").
Proof.
  split.
  - intros [|c rest] H; [discriminate H|].
    rewrite isCamelCase_cons in H. apply andb_true_iff in H as [Hc Hrest].
    assert (Hs : forallb isAlnum (c :: rest) = true).
    { cbn [forallb]. rewrite Hrest, andb_true_r.
      revert Hc; by_cases_on_classes. }
    rewrite (snakeToCamel_camelToSnake _ Hs).
    rewrite (camelToSnake_ascii (recase None (c :: rest)))
      by (exact (forallb_impl _ _ _ isAlnum_ascii (recase_alnum _ None Hs))).
    rewrite (camelToSnake_ascii (c :: rest))
      by (exact (forallb_impl _ _ _ isAlnum_ascii Hs)).
    apply boundaries_recase; [exact Hs | exact I].
  - split; [reflexivity|]. split; [|discriminate].
    rewrite snakeToCamel_camelToSnake by reflexivity. reflexivity.
Qed.

End Stability.

(** C2 at [userIDToken]. *)
Lemma camelToSnake_stable_on_round_trip_witness :
  isCamelCase (js "userIDToken") = true
  /\ camelToSnake (R := asciiRuntime)
       (snakeToCamel (camelToSnake (js "userIDToken")))
     = camelToSnake (js "userIDToken").
Proof.
  split; [reflexivity|].
  apply (proj1 (@camelToSnake_stable_on_round_trip asciiRuntime)).
  reflexivity.
Defined.

(** ** The scanners *)

(** *** [matchAll] has fuel enough *)

Lemma span_length (p : codeUnit -> bool) (s : jsstring) :
  (List.length (snd (span p s)) <= List.length s)%nat.
Proof.
  induction s as [|c rest IH]; cbn [span]; [simpl; lia|].
  destruct (p c); [|simpl; lia].
  destruct (span p rest); simpl in *; lia.
Qed.

Lemma asMatchAt_shorter prev s columnName aliasName rest :
  asMatchAt prev s = Some (columnName, aliasName, rest) ->
  (List.length rest < List.length s)%nat.
Proof.
  unfold asMatchAt. destruct s as [|c s1]; [discriminate|].
  destruct (wordBoundary prev (c :: s1) && isIdentStart c); [|discriminate].
  pose proof (span_length isWordChar s1) as H1.
  destruct (span isWordChar s1) as [tail s2].
  pose proof (span_length isWhiteSpace s2) as H2.
  destruct (span isWhiteSpace s2) as [ws1 s3].
  destruct ws1 as [|? ?]; [discriminate|].
  destruct s3 as [|a [|s' s4]]; try discriminate.
  destruct (isA a && isS s'); [|discriminate].
  pose proof (span_length isWhiteSpace s4) as H4.
  destruct (span isWhiteSpace s4) as [ws2 s5].
  destruct ws2 as [|? ?]; [discriminate|].
  destruct s5 as [|d s6]; [discriminate|].
  destruct (isIdentStart d); [|discriminate].
  pose proof (span_length isWordChar s6) as H6.
  destruct (span isWordChar s6) as [tail2 s7].
  intros E; injection E as _ _ <-. simpl in *. lia.
Qed.

(** Any fuel above the length of the input gives the same matches: the fuel
    [matchAllAs] starts with never runs out. *)
Lemma matchAllAs_from_enough (n1 : nat) :
  forall (n2 : nat) (prev : option codeUnit) (s : jsstring),
    (List.length s < n1)%nat -> (List.length s < n2)%nat ->
    matchAllAs_from n1 prev s = matchAllAs_from n2 prev s.
Proof.
  induction n1 as [|n1 IH]; intros [|n2] prev s H1 H2; try lia.
  destruct s as [|c s']; [reflexivity|]. cbn [matchAllAs_from].
  destruct (asMatchAt prev (c :: s')) as [[[columnName aliasName] rest]|] eqn:E.
  - apply asMatchAt_shorter in E. f_equal. apply IH; simpl in *; lia.
  - apply IH; simpl in *; lia.
Qed.

Lemma matchAllAs_more_fuel (ln : jsstring) (n : nat) :
  (List.length ln < n)%nat -> matchAllAs_from n None ln = matchAllAs ln.
Proof.
  intros H. apply matchAllAs_from_enough; [exact H | lia].
Qed.

(** *** [parsePipe]: nothing before the first SQL line, everything after *)

Section PipeBlocks.
Context {R : JSRuntime}.
Variable filename : jsstring.

Lemma pipe_outside_block (lns : list jsstring) :
  forall (n : nat) (acc : list LintIssue),
    (forall ln, In ln lns -> startsSql ln = false) ->
    fold_left (pipeStep filename) lns (mkState false n acc)
    = mkState false (n + List.length lns) acc.
Proof.
  induction lns as [|ln rest IH]; intros n acc Hall; cbn [fold_left].
  - rewrite Nat.add_0_r. reflexivity.
  - unfold pipeStep at 2. cbn [inSection lineNumber issues].
    rewrite (Hall ln (or_introl eq_refl)). cbn [negb].
    rewrite IH by (intros x Hx; apply Hall; right; exact Hx).
    cbn [List.length]. f_equal. lia.
Qed.

Lemma pipe_inside_block (lns : list jsstring) :
  forall (n : nat) (acc : list LintIssue),
    fold_left (pipeStep filename) lns (mkState true n acc)
    = mkState true (n + List.length lns)
        (acc ++ scanFrom filename (S n) lns).
Proof.
  induction lns as [|ln rest IH]; intros n acc; cbn [fold_left scanFrom].
  - rewrite Nat.add_0_r, app_nil_r. reflexivity.
  - unfold pipeStep at 2. cbn [inSection lineNumber issues].
    destruct (startsSql ln); cbn [negb]; rewrite IH; cbn [List.length];
      rewrite <- app_assoc; f_equal; lia.
Qed.

Lemma pipe_block_opens (pre post : list jsstring) (ln : jsstring) :
  (forall x, In x pre -> startsSql x = false) ->
  startsSql ln = true ->
  issues (fold_left (pipeStep filename) (pre ++ ln :: post)
            (mkState false 0 []))
  = scanFrom filename (S (List.length pre)) (ln :: post).
Proof.
  intros Hpre Hln. rewrite fold_left_app, (pipe_outside_block pre 0 [] Hpre).
  cbn [fold_left]. unfold pipeStep at 2. cbn [inSection lineNumber issues].
  rewrite Hln. cbn [negb app]. rewrite pipe_inside_block.
  cbn [issues scanFrom plus]. reflexivity.
Qed.

(** C10: [parsePipe] reports nothing when no line opens a SQL block, and
    from the first line that opens one it scans every line to the end of
    the file. *)
Theorem parsePipe_block_never_ends :
  (forall content : jsstring,
     (forall ln, In ln (splitLines content) -> startsSql ln = false) ->
     parsePipe content filename = [])
  /\ (forall (content : jsstring) (pre post : list jsstring) (ln : jsstring),
        splitLines content = pre ++ ln :: post ->
        (forall x, In x pre -> startsSql x = false) ->
        startsSql ln = true ->
        parsePipe content filename
        = scanFrom filename (S (List.length pre)) (ln :: post)).
Proof.
  split.
  - intros content Hall. unfold parsePipe.
    rewrite (pipe_outside_block _ 0 [] Hall). reflexivity.
  - intros content pre post ln Hsplit Hpre Hln. unfold parsePipe.
    rewrite Hsplit. apply pipe_block_opens; assumption.
Qed.

End PipeBlocks.

(** C10 on a file with no SQL line, and on a file whose second line opens
    the block. *)
Lemma parsePipe_block_never_ends_witness :
  parsePipe (R := asciiRuntime)
    (joinLines [js "user_id AS user_id"; js "FROM events"]) (js "q.pipe")
  = []
  /\ (startsSql (R := asciiRuntime) (js "node_col AS node_col") = false
      /\ startsSql (R := asciiRuntime) (js "SELECT") = true
      /\ parsePipe (R := asciiRuntime)
           (joinLines [js "node_col AS node_col"; js "SELECT";
                       js "  user_id AS user_id"])
           (js "q.pipe")
         = scanFrom (js "q.pipe") 2 [js "SELECT"; js "  user_id AS user_id"]).
Proof.
  split; [|split; [reflexivity | split; [reflexivity|]]].
  - apply (proj1 (@parsePipe_block_never_ends asciiRuntime (js "q.pipe"))).
    intros ln Hin. vm_compute in Hin.
    destruct Hin as [<- | [<- | []]]; reflexivity.
  - apply (proj2 (@parsePipe_block_never_ends asciiRuntime (js "q.pipe"))
             _ [js "node_col AS node_col"]
             [js "  user_id AS user_id"] (js "SELECT")).
    + reflexivity.
    + intros x Hin. destruct Hin as [<- | []]. reflexivity.
    + reflexivity.
Defined.

(** *** On ASCII files every runtime does what the ASCII runtime does *)

Lemma span_forallb (q p : codeUnit -> bool) (s : jsstring) :
  forallb q s = true ->
  forallb q (fst (span p s)) = true /\ forallb q (snd (span p s)) = true.
Proof.
  induction s as [|c rest IH]; intros H; cbn [span]; [auto|].
  cbn [forallb] in H. apply andb_true_iff in H as [Hc Hrest].
  destruct (p c).
  - destruct (IH Hrest) as [Ha Hb]. destruct (span p rest); cbn in *.
    rewrite Hc, Ha, Hb. auto.
  - cbn. rewrite Hc, Hrest. auto.
Qed.

Lemma rev_forallb (q : codeUnit -> bool) (s : jsstring) :
  forallb q s = true -> forallb q (rev s) = true.
Proof.
  rewrite !forallb_forall. intros H c Hc. apply H, in_rev, Hc.
Qed.

Lemma trim_forallb (q : codeUnit -> bool) (s : jsstring) :
  forallb q s = true -> forallb q (trim s) = true.
Proof.
  intros H. unfold trim, dropWhile.
  apply rev_forallb, span_forallb, rev_forallb, span_forallb, H.
Qed.

Lemma splitLines_forallb (q : codeUnit -> bool) (s : jsstring) :
  forallb q s = true ->
  forall ln, In ln (splitLines s) -> forallb q ln = true.
Proof.
  induction s as [|c rest IH]; intros H ln Hin.
  - destruct Hin as [<- | []]. reflexivity.
  - cbn [forallb] in H. apply andb_true_iff in H as [Hc Hrest].
    specialize (IH Hrest). cbn [splitLines] in Hin.
    destruct (c =? newline).
    + destruct Hin as [<- | Hin]; [reflexivity | apply IH, Hin].
    + destruct (splitLines rest) as [|l ls].
      * destruct Hin as [<- | []]. cbn. rewrite Hc. reflexivity.
      * destruct Hin as [<- | Hin].
        -- cbn [forallb]. rewrite Hc. apply IH. left; reflexivity.
        -- apply IH. right; exact Hin.
Qed.

Lemma fold_left_agree {A B : Type} (f g : A -> B -> A) (l : list B) :
  (forall a b, In b l -> f a b = g a b) ->
  forall a, fold_left f l a = fold_left g l a.
Proof.
  induction l as [|b l IH]; intros H a; [reflexivity|]. cbn [fold_left].
  rewrite (H a b (or_introl eq_refl)).
  apply IH. intros a' b' Hb'. apply H. right; exact Hb'.
Qed.

Section AsciiFiles.
Context {R : JSRuntime}.

Lemma toUpperCase_trim_ascii (ln : jsstring) :
  forallb isAscii ln = true ->
  toUpperCase (trim ln) = toUpperCase (JSRuntime := asciiRuntime) (trim ln).
Proof.
  intros H. apply toUpperCase_ascii, trim_forallb, H.
Qed.

Lemma datasourceStep_ascii filename st (ln : jsstring) :
  forallb isAscii ln = true ->
  datasourceStep filename st ln
  = datasourceStep (R := asciiRuntime) filename st ln.
Proof.
  intros H. unfold datasourceStep.
  rewrite (toUpperCase_trim_ascii ln H). reflexivity.
Qed.

Lemma pipeStep_ascii filename st (ln : jsstring) :
  forallb isAscii ln = true ->
  pipeStep filename st ln = pipeStep (R := asciiRuntime) filename st ln.
Proof.
  intros H. unfold pipeStep, startsSql.
  rewrite (toUpperCase_trim_ascii ln H). reflexivity.
Qed.

Lemma parseDatasource_ascii (content filename : jsstring) :
  forallb isAscii content = true ->
  parseDatasource content filename
  = parseDatasource (R := asciiRuntime) content filename.
Proof.
  intros H. unfold parseDatasource. f_equal. apply fold_left_agree.
  intros st ln Hin.
  apply datasourceStep_ascii, (splitLines_forallb isAscii content H ln Hin).
Qed.

Lemma parsePipe_ascii (content filename : jsstring) :
  forallb isAscii content = true ->
  parsePipe content filename
  = parsePipe (R := asciiRuntime) content filename.
Proof.
  intros H. unfold parsePipe. f_equal. apply fold_left_agree.
  intros st ln Hin.
  apply pipeStep_ascii, (splitLines_forallb isAscii content H ln Hin).
Qed.

End AsciiFiles.

(** *** The query scenario *)

(** C3, as amended: on the one-line query the two [AS] pairs are found;
    the pair [user_id AS userId] raises nothing, and the alias [session_id]
    is reported twice on line 1, once by the camelCase check of the pair and
    once by the check for snake_case aliases.  No issue names [user_id] or
    [userId], and none is about the column [session_id]. *)
Theorem parsePipe_scenario_two_issues :
  forall (R : JSRuntime) (filename : jsstring),
    matchAllAs scenarioQuery
    = [(js "user_id", js "userId"); (js "session_id", js "session_id")]
    /\ checkAs filename 1 (js "user_id", js "userId") = []
    /\ checkAs filename 1 (js "session_id", js "session_id")
       = [aliasNotCamel filename 1 (js "session_id")]
    /\ parsePipe scenarioQuery filename
       = [aliasNotCamel filename 1 (js "session_id");
          aliasIsSnake filename 1 (js "session_id")].
Proof.
  intros R filename. split; [reflexivity|]. split; [reflexivity|].
  split; [reflexivity|].
  rewrite parsePipe_ascii by reflexivity. reflexivity.
Qed.

(** C3 on the ASCII runtime, for the file [events.pipe]. *)
Lemma parsePipe_scenario_two_issues_witness :
  parsePipe (R := asciiRuntime) scenarioQuery (js "events.pipe")
  = [aliasNotCamel (js "events.pipe") 1 (js "session_id");
     aliasIsSnake (js "events.pipe") 1 (js "session_id")].
Proof.
  exact (proj2 (proj2 (proj2
           (parsePipe_scenario_two_issues asciiRuntime (js "events.pipe"))))).
Defined.

(** C3 as stated fails: the scenario's query yields two issues, not one. *)
Lemma parsePipe_scenario_not_one_issue :
  List.length (parsePipe (R := asciiRuntime) scenarioQuery (js "events.pipe"))
  = 2%nat
  /\ ~ (exists i : LintIssue,
          parsePipe (R := asciiRuntime) scenarioQuery (js "events.pipe") = [i]).
Proof.
  split; [reflexivity|]. intros [i Hi].
  apply (f_equal (@List.length LintIssue)) in Hi. vm_compute in Hi.
  discriminate Hi.
Qed.

(** *** The schema scenario *)

Section SchemaSection.
Context {R : JSRuntime}.
Variable filename : jsstring.

Lemma datasource_before_schema (lns : list jsstring) :
  forall (n : nat) (acc : list LintIssue),
    (forall ln, In ln lns -> opensSchema ln = false) ->
    fold_left (datasourceStep filename) lns (mkState false n acc)
    = mkState false (n + List.length lns) acc.
Proof.
  induction lns as [|ln rest IH]; intros n acc Hall; cbn [fold_left].
  - rewrite Nat.add_0_r. reflexivity.
  - pose proof (Hall ln (or_introl eq_refl)) as Hln.
    unfold opensSchema in Hln.
    unfold datasourceStep at 2. cbn [inSection lineNumber issues].
    rewrite Hln. cbn [andb].
    rewrite IH by (intros x Hx; apply Hall; right; exact Hx).
    cbn [List.length]. f_equal. lia.
Qed.

Lemma datasource_quiet_line (st : ScanState) (ln : jsstring) :
  quietLine ln = true ->
  issues (datasourceStep filename st ln) = issues st.
Proof.
  unfold quietLine, opensSchema, datasourceStep.
  destruct (startsWith (toUpperCase (trim ln)) (js "SCHEMA"));
    [discriminate|].
  cbn [negb andb]. intros H.
  destruct (inSection st); cbn [andb]; [|reflexivity].
  destruct (startsWith (toUpperCase (trim ln)) (js "ENGINE"));
    [reflexivity|].
  cbn [orb] in *.
  destruct (strictEq (trim ln) []); [reflexivity|].
  cbn [orb] in H. rewrite H. cbn [negb].
  rewrite andb_false_r. reflexivity.
Qed.

Lemma datasource_quiet_lines (lns : list jsstring) :
  forall st : ScanState,
    (forall ln, In ln lns -> quietLine ln = true) ->
    issues (fold_left (datasourceStep filename) lns st) = issues st.
Proof.
  induction lns as [|ln rest IH]; intros st Hall; [reflexivity|].
  cbn [fold_left].
  rewrite IH by (intros x Hx; apply Hall; right; exact Hx).
  apply datasource_quiet_line, Hall. left; reflexivity.
Qed.

(** A line of the schema section whose trimmed text [t] is ASCII: the
    step is the one the ASCII runtime takes on [t] itself. *)
Lemma datasource_column_line (n : nat) (acc : list LintIssue)
    (ln t : jsstring) :
  trim ln = t -> forallb isAscii t = true -> trim t = t ->
  datasourceStep filename (mkState true n acc) ln
  = datasourceStep (R := asciiRuntime) filename (mkState true n acc) t.
Proof.
  intros Ht Hascii Htt. unfold datasourceStep. rewrite Htt, Ht.
  rewrite (toUpperCase_ascii t Hascii). reflexivity.
Qed.

(** C4, as amended: when the lines of the file are a schema header, the
    lines [user_id String,], [userId String,] and [session_id String]
    (indented or not), and then blank lines, ENGINE lines and comments
    only, [parseDatasource] returns exactly one issue; it names the column
    [userId], its message contains [snake_case], and its line is the line
    of [userId String,] counted from the start of the file: the third
    line when the header is the first. *)
Theorem parseDatasource_scenario_line :
  forall (content : jsstring) (pre post : list jsstring)
         (header l1 l2 l3 : jsstring),
    splitLines content = pre ++ header :: l1 :: l2 :: l3 :: post ->
    (forall ln, In ln pre -> opensSchema ln = false) ->
    opensSchema header = true ->
    trim l1 = js "user_id String," ->
    trim l2 = js "userId String," ->
    trim l3 = js "session_id String" ->
    (forall ln, In ln post -> quietLine ln = true) ->
    parseDatasource content filename
    = [columnNotSnake filename (List.length pre + 3) (js "userId")]
    /\ includes (issue (columnNotSnake filename (List.length pre + 3)
                          (js "userId")))
         (js "snake_case") = true.
Proof.
  intros content pre post header l1 l2 l3 Hsplit Hpre Hhead H1 H2 H3 Hpost.
  split; [|reflexivity].
  unfold parseDatasource. rewrite Hsplit, fold_left_app.
  rewrite (datasource_before_schema pre 0 [] Hpre).
  cbn [fold_left plus].
  rewrite (datasource_quiet_lines post _ Hpost).
  unfold datasourceStep at 4. unfold opensSchema in Hhead.
  rewrite Hhead.
  rewrite (datasource_column_line _ _ l1 _ H1) by reflexivity.
  change (datasourceStep (R := asciiRuntime) filename
            (mkState true (S (lineNumber (mkState false (List.length pre) [])))
               (issues (mkState false (List.length pre) [])))
            (js "user_id String,"))
    with (mkState true (S (S (List.length pre))) []).
  rewrite (datasource_column_line _ _ l2 _ H2) by reflexivity.
  change (datasourceStep (R := asciiRuntime) filename
            (mkState true (S (S (List.length pre))) [])
            (js "userId String,"))
    with (mkState true (S (S (S (List.length pre))))
            [columnNotSnake filename (S (S (S (List.length pre))))
               (js "userId")]).
  rewrite (datasource_column_line _ _ l3 _ H3) by reflexivity.
  cbn [datasourceStep issues].
  replace (List.length pre + 3)%nat with (S (S (S (List.length pre))))
    by lia.
  reflexivity.
Qed.

End SchemaSection.

(** C4 on the file of the repository's line-number test: the issue is on
    line 3. *)
Lemma parseDatasource_scenario_line_witness :
  parseDatasource (R := asciiRuntime)
    (joinLines [js "SCHEMA >"; js "    user_id String,";
                js "    userId String,"; js "    session_id String";
                js ""; js "ENGINE MergeTree"])
    (js "test.datasource")
  = [columnNotSnake (js "test.datasource") 3 (js "userId")]
  /\ includes (issue (columnNotSnake (js "test.datasource") 3 (js "userId")))
       (js "snake_case") = true.
Proof.
  apply (@parseDatasource_scenario_line asciiRuntime (js "test.datasource")
           _ [] [js ""; js "ENGINE MergeTree"] (js "SCHEMA >")
           (js "    user_id String,") (js "    userId String,")
           (js "    session_id String")).
  - reflexivity.
  - intros ln [].
  - reflexivity.
  - reflexivity.
  - reflexivity.
  - reflexivity.
  - intros ln [<- | [<- | []]]; reflexivity.
Defined.

(** C4 as stated fails: on the scenario's file the one issue is on line 3,
    the header being line 1, and not on line 2. *)
Lemma parseDatasource_scenario_not_line_2 :
  List.map line
    (parseDatasource (R := asciiRuntime) scenarioDatasource
       (js "events.datasource"))
  = [3%nat]
  /\ ~ (exists i : LintIssue,
          parseDatasource (R := asciiRuntime) scenarioDatasource
            (js "events.datasource") = [i]
          /\ line i = 2%nat).
Proof.
  split; [reflexivity|]. intros (i & Hi & Hline).
  apply (f_equal (List.map line)) in Hi. cbn [List.map] in Hi.
  rewrite Hline in Hi. vm_compute in Hi. discriminate Hi.
Qed.

(** ** More on the case utilities *)

Lemma upper_lowered_differs c : isUpper c = true -> lowerChar c <> c.
Proof. by_cases_on_classes. Qed.

Lemma alnum_lowerOrDigit_or_upper c :
  isAlnum c = true -> isLowerOrDigit c = negb (isUpper c).
Proof. by_cases_on_classes. Qed.

Lemma upperChar_upper_iff_lower c :
  isLowerOrDigit c = true -> isUpper (upperChar c) = isLower c.
Proof. by_cases_on_classes. Qed.

Lemma upperChar_not_lower c :
  isLowerOrDigit c = true -> isLower (upperChar c) = false.
Proof. by_cases_on_classes. Qed.

Lemma lowerChar_upperChar c :
  isLowerOrDigit c = true -> lowerChar (upperChar c) = c.
Proof. by_cases_on_classes. Qed.

Lemma snakeChar_lowerOrDigit c :
  isSnakeChar c = true -> (c =? underscore) = false ->
  isLowerOrDigit c = true.
Proof. by_cases_on_classes. Qed.

Lemma isLower_snakeChar c : isLower c = true -> isSnakeChar c = true.
Proof. by_cases_on_classes. Qed.

Lemma isLower_alnum c : isLower c = true -> isAlnum c = true.
Proof. by_cases_on_classes. Qed.

Lemma isLower_not_underscore c :
  isLower c = true -> (c =? underscore) = false.
Proof. by_cases_on_classes. Qed.

Lemma isLowerOrDigit_alnum c : isLowerOrDigit c = true -> isAlnum c = true.
Proof. by_cases_on_classes. Qed.

Lemma isLowerOrDigit_snakeChar c :
  isLowerOrDigit c = true -> isSnakeChar c = true.
Proof. by_cases_on_classes. Qed.

Lemma isLowerOrDigit_notUnderscore c :
  isLowerOrDigit c = true -> notUnderscore c = true.
Proof. unfold notUnderscore. by_cases_on_classes. Qed.

Lemma isSnakeChar_alnum_lowerOrDigit c :
  isAlnum c = true -> isSnakeChar c = true -> isLowerOrDigit c = true.
Proof. by_cases_on_classes. Qed.

Lemma notUnderscore_lowerChar c :
  notUnderscore (lowerChar c) = notUnderscore c.
Proof. unfold notUnderscore. by_cases_on_classes. Qed.

Lemma isIdentStart_wordChar c : isIdentStart c = true -> isWordChar c = true.
Proof. by_cases_on_classes. Qed.

Lemma existsb_false_forallb {A : Type} (p : A -> bool) (l : list A) :
  existsb p l = false <-> forallb (fun x => negb (p x)) l = true.
Proof.
  induction l as [|x l IH]; [simpl; tauto|]. cbn [existsb forallb].
  rewrite orb_false_iff, andb_true_iff, negb_true_iff, IH. tauto.
Qed.

Lemma no_underscore_clean (s : jsstring) :
  forallb notUnderscore s = true ->
  test_doubleUnderscore s = false /\ endsWith s [underscore] = false.
Proof.
  intros H. rewrite forallb_forall in H. split; apply not_true_iff_false.
  - rewrite test_doubleUnderscore_spec. intros (pre & post & ->).
    specialize (H underscore). rewrite in_app_iff in H.
    discriminate H. right; left; reflexivity.
  - rewrite endsWith_singleton. intros (pre & ->).
    specialize (H underscore). rewrite in_app_iff in H.
    discriminate H. right; left; reflexivity.
Qed.

(** X1: Both classifiers accept a name exactly when it is a lowercase letter
    followed by lowercase letters and digits. *)
Theorem classifiers_overlap (s : jsstring) :
  isCamelCase s = true /\ isSnakeCase s = true
  <-> exists c rest,
        s = c :: rest /\ isLower c = true
        /\ forallb isLowerOrDigit rest = true.
Proof.
  destruct s as [|c rest].
  - split; [intros [H _]; discriminate H|].
    intros (c & rest & E & _); discriminate E.
  - rewrite isCamelCase_cons, isSnakeCase_cons, !andb_true_iff,
      !negb_true_iff. split.
    + intros [[Hc Hal] [[[_ Hsn] _] _]]. exists c, rest.
      repeat split; auto. rewrite forallb_forall in *. intros x Hx.
      apply isSnakeChar_alnum_lowerOrDigit; auto.
    + intros (c' & rest' & E & Hc & Hld). injection E as <- <-.
      assert (Hnu : forallb notUnderscore (c :: rest) = true).
      { cbn [forallb]. apply andb_true_iff. split.
        - apply isLowerOrDigit_notUnderscore, isLower_lowerOrDigit, Hc.
        - revert Hld. apply forallb_impl.
          exact isLowerOrDigit_notUnderscore. }
      destruct (no_underscore_clean _ Hnu) as [Hdd Hend].
      repeat split; auto.
      * revert Hld. apply forallb_impl. exact isLowerOrDigit_alnum.
      * revert Hld. apply forallb_impl. exact isLowerOrDigit_snakeChar.
Qed.

Lemma insertBoundaries_no_upper (s : jsstring) :
  forall prev, existsb isUpper s = false -> insertBoundaries prev s = s.
Proof.
  induction s as [|c rest IH]; intros prev H; [reflexivity|].
  cbn [existsb] in H. apply orb_false_iff in H as [Hc Hrest].
  cbn [insertBoundaries]. rewrite (IH _ Hrest).
  destruct (boundaryBefore prev c rest) eqn:Hb; [|reflexivity].
  apply boundaryBefore_upper in Hb. congruence.
Qed.

Lemma map_lowerChar_no_upper (s : jsstring) :
  existsb isUpper s = false -> List.map lowerChar s = s.
Proof.
  induction s as [|c rest IH]; [reflexivity|]. cbn [existsb List.map].
  intros H. apply orb_false_iff in H as [Hc Hrest].
  rewrite (lowerChar_fixed c Hc), (IH Hrest). reflexivity.
Qed.

Lemma lowered_no_upper (s : jsstring) :
  existsb isUpper (List.map lowerChar s) = false.
Proof.
  induction s as [|c rest IH]; [reflexivity|]. cbn [existsb List.map].
  rewrite lowerChar_not_upper, IH. reflexivity.
Qed.

Section MoreConverters.
Context {R : JSRuntime}.

(** X2: On an ASCII string [camelToSnake] changes nothing exactly when the
    string has no uppercase letter. *)
Theorem camelToSnake_fixed_iff_no_upper (s : jsstring) :
  forallb isAscii s = true ->
  (camelToSnake s = s <-> existsb isUpper s = false).
Proof.
  intros Ha. rewrite (camelToSnake_ascii s Ha). split.
  - intros E. rewrite <- E. apply lowered_no_upper.
  - intros H. rewrite (insertBoundaries_no_upper s None H).
    apply map_lowerChar_no_upper, H.
Qed.

(** X3: On ASCII strings [camelToSnake] is idempotent. *)
Theorem camelToSnake_idempotent_on_ascii (s : jsstring) :
  forallb isAscii s = true ->
  camelToSnake (camelToSnake s) = camelToSnake s.
Proof.
  intros Ha. rewrite (camelToSnake_ascii s Ha).
  set (t := List.map lowerChar (insertBoundaries None s)).
  assert (Hta : forallb isAscii t = true)
    by (apply map_lowerChar_ascii, insertBoundaries_ascii, Ha).
  rewrite (camelToSnake_ascii t Hta).
  rewrite (insertBoundaries_no_upper t None (lowered_no_upper _)).
  apply map_lowerChar_idem.
Qed.

End MoreConverters.

(** X2 on a concrete input. *)
Lemma camelToSnake_fixed_iff_no_upper_witness :
  forallb isAscii (js "user_id2") = true
  /\ (camelToSnake (R := asciiRuntime) (js "user_id2") = js "user_id2"
      <-> existsb isUpper (js "user_id2") = false).
Proof.
  split; [reflexivity|].
  apply (@camelToSnake_fixed_iff_no_upper asciiRuntime). reflexivity.
Defined.

(** X3 on a concrete input. *)
Lemma camelToSnake_idempotent_on_ascii_witness :
  forallb isAscii (js "parseHTMLString") = true
  /\ camelToSnake (R := asciiRuntime) (camelToSnake (js "parseHTMLString"))
     = camelToSnake (js "parseHTMLString").
Proof.
  split; [reflexivity|].
  apply (@camelToSnake_idempotent_on_ascii asciiRuntime). reflexivity.
Defined.

Lemma camelize_no_underscore (after : codeUnit -> bool) (s : jsstring) :
  forall prev,
    match prev with Some p => (p =? underscore) = false | None => True end ->
    forallb notUnderscore s = true ->
    camelize after prev s = s.
Proof.
  induction s as [|c rest IH]; intros prev Hp H; [reflexivity|].
  cbn [forallb] in H. apply andb_true_iff in H as [Hc Hrest].
  unfold notUnderscore in Hc. apply negb_true_iff in Hc.
  cbn [camelize]. unfold camelizeAt. rewrite Hc. cbn [andb].
  destruct prev as [p|]; [rewrite Hp|]; cbn [andb app]; f_equal;
    apply IH; assumption.
Qed.

Lemma lowered_notUnderscore (s : jsstring) :
  forallb notUnderscore s = true ->
  forallb notUnderscore (List.map lowerChar s) = true.
Proof.
  rewrite !forallb_forall. intros H c Hc.
  apply in_map_iff in Hc as (x & <- & Hx).
  rewrite notUnderscore_lowerChar. apply H, Hx.
Qed.

Section Flattening.
Context {R : JSRuntime}.

(** X4: [snakeToCamel] lowercases before it looks for underscores: an ASCII name
    without an underscore, a camelCase name for one, comes back all
    lowercase. *)
Theorem snakeToCamel_without_underscore (s : jsstring) :
  forallb isAscii s = true -> forallb notUnderscore s = true ->
  snakeToCamel s = List.map lowerChar s.
Proof.
  intros Ha Hu. rewrite (snakeToCamel_ascii s Ha).
  apply camelize_no_underscore; [exact I | apply lowered_notUnderscore, Hu].
Qed.

End Flattening.

(** X4 on a concrete input. *)
Lemma snakeToCamel_without_underscore_witness :
  (forallb isAscii (js "userId") = true
   /\ forallb notUnderscore (js "userId") = true)
  /\ snakeToCamel (R := asciiRuntime) (js "userId") = js "userid".
Proof.
  split; [split; reflexivity|].
  apply (@snakeToCamel_without_underscore asciiRuntime); reflexivity.
Defined.

(** *** When the round trips give the name back *)

Lemma acronymFree_cons2 c1 c2 rest :
  acronymFree (c1 :: c2 :: rest)
  = (negb (isUpper c1 && isUpper c2)
     || match rest with n :: _ => isLower n | [] => false end)
    && acronymFree (c2 :: rest).
Proof. reflexivity. Qed.

Lemma recase_fixed_iff (s : jsstring) :
  forall p : codeUnit,
    isAlnum p = true -> forallb isAlnum s = true ->
    (recase (Some p) s = s <-> acronymFree (p :: s) = true).
Proof.
  induction s as [|c rest IH]; intros p Hp Hs; [simpl; tauto|].
  cbn [forallb] in Hs. apply andb_true_iff in Hs as [Hc Hrest].
  rewrite acronymFree_cons2, andb_true_iff, <- (IH c Hc Hrest).
  cbn [recase].
  assert (Hhead :
    (if boundaryBefore (Some p) c rest then c else lowerChar c) = c
    <-> negb (isUpper p && isUpper c)
        || match rest with n :: _ => isLower n | [] => false end = true).
  { unfold boundaryBefore.
    destruct (isUpper c) eqn:Huc.
    - pose proof (upper_lowered_differs c Huc) as Hne.
      pose proof (alnum_lowerOrDigit_or_upper p Hp) as Hld.
      rewrite Hld, !andb_true_r.
      destruct (isUpper p); cbn [negb andb orb];
        destruct (match rest with n :: _ => isLower n | [] => false end);
        split; intros H; try reflexivity; try discriminate H; congruence.
    - rewrite !andb_false_r, (lowerChar_fixed c Huc). cbn [orb negb].
      tauto. }
  rewrite <- Hhead. split.
  - intros E. injection E as E1 E2. auto.
  - intros [E1 E2]. rewrite E1, E2. reflexivity.
Qed.

Section RoundTrips.
Context {R : JSRuntime}.

(** X5: On a camelCase name, converting to snake_case and back gives the name
    again exactly when every uppercase letter of the name starts a word of
    its own: an acronym such as the [ID] of [userID] is lost. *)
Theorem camel_round_trip_iff_acronymFree (s : jsstring) :
  isCamelCase s = true ->
  (snakeToCamel (camelToSnake s) = s <-> acronymFree s = true).
Proof.
  destruct s as [|c rest]; [discriminate|]. rewrite isCamelCase_cons.
  intros H. apply andb_true_iff in H as [Hc Hrest].
  pose proof (isLower_alnum c Hc) as Hca.
  rewrite snakeToCamel_camelToSnake
    by (cbn [forallb]; rewrite Hca, Hrest; reflexivity).
  rewrite <- (recase_fixed_iff rest c Hca Hrest).
  cbn [recase boundaryBefore].
  rewrite lowerChar_fixed
    by (apply isLowerOrDigit_not_upper, isLower_lowerOrDigit, Hc).
  split; intros E; [injection E as E|rewrite E]; auto.
Qed.

End RoundTrips.

(** X5 on a concrete input. *)
Lemma camel_round_trip_iff_acronymFree_witness :
  isCamelCase (js "userIDToken") = true
  /\ (snakeToCamel (R := asciiRuntime) (camelToSnake (js "userIDToken"))
      = js "userIDToken"
      <-> acronymFree (js "userIDToken") = true).
Proof.
  split; [reflexivity|].
  apply (@camel_round_trip_iff_acronymFree asciiRuntime). reflexivity.
Defined.

Lemma snake_after_underscore (p x : codeUnit) (rest : jsstring) :
  forallb isSnakeChar (underscore :: x :: rest) = true ->
  test_doubleUnderscore (p :: underscore :: x :: rest) = false ->
  endsWith (p :: underscore :: x :: rest) [underscore] = false ->
  ((x =? underscore) = false /\ isLowerOrDigit x = true)
  /\ forallb isSnakeChar rest = true
  /\ test_doubleUnderscore (x :: rest) = false
  /\ endsWith (x :: rest) [underscore] = false.
Proof.
  intros Hs Hdd Hend.
  cbn [forallb] in Hs. apply andb_true_iff in Hs as [_ Hs].
  apply andb_true_iff in Hs as [Hx Hrest].
  rewrite !test_doubleUnderscore_cons2 in Hdd.
  apply orb_false_iff in Hdd as [_ Hdd].
  apply orb_false_iff in Hdd as [Hxu Hdd].
  rewrite N.eqb_refl in Hxu. cbn [andb] in Hxu.
  rewrite !endsWith_cons_cons in Hend.
  repeat split; auto. apply snakeChar_lowerOrDigit; assumption.
Qed.

Lemma camelize_after_underscore (p x : codeUnit) (rest : jsstring) :
  (x =? underscore) = false -> isLowerOrDigit x = true ->
  camelize isLowerOrDigit (Some p) (underscore :: x :: rest)
  = upperChar x :: camelize isLowerOrDigit (Some x) rest.
Proof.
  intros Hxu Hx. cbn [camelize]. unfold camelizeAt at 1 2.
  rewrite N.eqb_refl, Hx, Hxu. reflexivity.
Qed.

Lemma camelize_plain (p c : codeUnit) (rest : jsstring) :
  (p =? underscore) = false -> (c =? underscore) = false ->
  camelize isLowerOrDigit (Some p) (c :: rest)
  = c :: camelize isLowerOrDigit (Some c) rest.
Proof.
  intros Hp Hc. cbn [camelize]. unfold camelizeAt at 1.
  rewrite Hp, Hc. reflexivity.
Qed.

Lemma headLower_camelize (x : codeUnit) (rest : jsstring) :
  (x =? underscore) = false ->
  forallb isSnakeChar rest = true ->
  test_doubleUnderscore (x :: rest) = false ->
  endsWith (x :: rest) [underscore] = false ->
  headLower (camelize isLowerOrDigit (Some x) rest) = headLower rest.
Proof.
  intros Hx Hs Hdd Hend. destruct rest as [|y r]; [reflexivity|].
  destruct (y =? underscore) eqn:Hy.
  - apply N.eqb_eq in Hy. subst y. destruct r as [|z r'].
    + rewrite endsWith_cons_cons, endsWith_one in Hend. discriminate Hend.
    + destruct (snake_after_underscore x z r' Hs Hdd Hend)
        as ((Hzu & Hz) & _).
      rewrite (camelize_after_underscore x z r' Hzu Hz). cbn [headLower].
      apply upperChar_not_lower, Hz.
  - rewrite (camelize_plain x y r Hx Hy). reflexivity.
Qed.

Lemma snake_round_trip_aux (n : nat) :
  forall (t : jsstring) (p q : codeUnit),
    (List.length t <= n)%nat ->
    (p =? underscore) = false ->
    forallb isSnakeChar t = true ->
    test_doubleUnderscore (p :: t) = false ->
    endsWith (p :: t) [underscore] = false ->
    isAlnum q = true ->
    (List.map lowerChar
       (insertBoundaries (Some q) (camelize isLowerOrDigit (Some p) t)) = t
     <-> restorable (isUpper q) t = true).
Proof.
  induction n as [|n IH]; intros [|c rest] p q Hlen Hp Hs Hdd Hend Hq;
    try (simpl; tauto); [simpl in Hlen; lia|].
  destruct (c =? underscore) eqn:Hc.
  - apply N.eqb_eq in Hc. subst c. destruct rest as [|x rest'].
    + rewrite endsWith_cons_cons, endsWith_one in Hend. discriminate Hend.
    + destruct (snake_after_underscore p x rest' Hs Hdd Hend)
        as ((Hxu & Hx) & Hs' & Hdd' & Hend').
      rewrite (camelize_after_underscore p x rest' Hxu Hx).
      cbn [insertBoundaries restorable]. rewrite N.eqb_refl.
      assert (Hb : boundaryBefore (Some q) (upperChar x)
                     (camelize isLowerOrDigit (Some x) rest')
                   = isLower x && (negb (isUpper q) || headLower rest')).
      { unfold boundaryBefore.
        change (match camelize isLowerOrDigit (Some x) rest' with
                | n0 :: _ => isLower n0
                | [] => false
                end)
          with (headLower (camelize isLowerOrDigit (Some x) rest')).
        rewrite (headLower_camelize x rest' Hxu Hs' Hdd' Hend').
        rewrite (upperChar_upper_iff_lower x Hx).
        rewrite (alnum_lowerOrDigit_or_upper q Hq).
        destruct (isUpper q), (isLower x), (headLower rest'); reflexivity. }
      change (match rest' with y :: _ => isLower y | [] => false end)
        with (headLower rest').
      rewrite Hb.
      pose proof (lowerChar_upperChar x Hx) as Hlx.
      destruct (isLower x && (negb (isUpper q) || headLower rest')) eqn:Hcond;
        cbn [app List.map andb]; rewrite Hlx.
      * apply andb_true_iff in Hcond as [Hxl _].
        change (lowerChar underscore) with underscore.
        assert (Hux : isUpper (upperChar x) = true)
          by (rewrite (upperChar_upper_iff_lower x Hx); exact Hxl).
        specialize (IH rest' x (upperChar x)).
        rewrite Hux in IH. rewrite <- IH; auto.
        -- split; intros E; [injection E as E|rewrite E]; auto.
        -- simpl in Hlen; lia.
        -- apply upperChar_lowerOrDigit, Hx.
      * split; [|discriminate]. intros E. injection E as E _.
        rewrite E, N.eqb_refl in Hxu. discriminate Hxu.
  - assert (Hcl : isLowerOrDigit c = true).
    { cbn [forallb] in Hs. apply andb_true_iff in Hs as [Hcs _].
      apply snakeChar_lowerOrDigit; assumption. }
    rewrite (camelize_plain p c rest Hp Hc). cbn [insertBoundaries restorable].
    rewrite Hc.
    replace (boundaryBefore (Some q) c (camelize isLowerOrDigit (Some c) rest))
      with false.
    2:{ unfold boundaryBefore.
        rewrite (isLowerOrDigit_not_upper c Hcl), !andb_false_r.
        reflexivity. }
    cbn [app List.map].
    rewrite (lowerChar_fixed c (isLowerOrDigit_not_upper c Hcl)).
    cbn [forallb] in Hs. apply andb_true_iff in Hs as [_ Hs'].
    rewrite test_doubleUnderscore_cons2 in Hdd.
    apply orb_false_iff in Hdd as [_ Hdd'].
    specialize (IH rest c c).
    rewrite (isLowerOrDigit_not_upper c Hcl) in IH.
    rewrite <- IH; auto.
    + split; intros E; [injection E as E|rewrite E]; auto.
    + simpl in Hlen; lia.
    + destruct rest as [|d rest'].
      * rewrite endsWith_one. exact Hc.
      * rewrite endsWith_cons_cons in Hend. exact Hend.
    + apply isLowerOrDigit_alnum, Hcl.
Qed.

Section SnakeRoundTrip.
Context {R : JSRuntime}.

(** X6: On a snake_case name, converting to camelCase and back gives the name
    again exactly when every underscore is followed by a lowercase letter,
    and by two of them after a word of one letter: [user_123_id] and
    [a_b_c] do not come back. *)
Theorem snake_round_trip_iff_restorable (s : jsstring) :
  isSnakeCase s = true ->
  (camelToSnake (snakeToCamel s) = s <-> restorable false s = true).
Proof.
  destruct s as [|c rest]; [discriminate|]. rewrite isSnakeCase_cons.
  intros H. apply andb_true_iff in H as [H Hend].
  apply andb_true_iff in H as [H Hdd].
  apply andb_true_iff in H as [Hc Hrest].
  apply negb_true_iff in Hend, Hdd.
  pose proof (isLower_not_underscore c Hc) as Hcu.
  pose proof (isLower_alnum c Hc) as Hca.
  assert (Hall : forallb isSnakeChar (c :: rest) = true).
  { cbn [forallb]. rewrite Hrest, andb_true_r.
    apply isLower_snakeChar, Hc. }
  rewrite snakeToCamel_ascii
    by (exact (forallb_impl _ _ _ isSnakeChar_ascii Hall)).
  rewrite (map_lowerChar_snake _ Hall).
  assert (Hout : camelize isLowerOrDigit None (c :: rest)
                 = c :: camelize isLowerOrDigit (Some c) rest).
  { cbn [camelize]. unfold camelizeAt at 1. rewrite Hcu. reflexivity. }
  rewrite Hout.
  rewrite camelToSnake_ascii.
  2:{ apply (forallb_impl _ _ _ isAlnum_ascii). cbn [forallb].
      rewrite Hca. apply (camelize_snake rest c Hrest Hdd Hend). }
  cbn [insertBoundaries boundaryBefore app List.map restorable].
  rewrite Hcu.
  rewrite (lowerChar_fixed c)
    by (apply isLowerOrDigit_not_upper, isLower_lowerOrDigit, Hc).
  pose proof (snake_round_trip_aux (List.length rest) rest c c
                (Nat.le_refl _) Hcu Hrest Hdd Hend Hca) as Haux.
  rewrite (isLowerOrDigit_not_upper c (isLower_lowerOrDigit c Hc)) in Haux.
  rewrite <- Haux.
  split; intros E; [injection E as E|rewrite E]; auto.
Qed.

End SnakeRoundTrip.

(** X6 on a concrete input. *)
Lemma snake_round_trip_iff_restorable_witness :
  isSnakeCase (js "a_b_cd") = true
  /\ (camelToSnake (R := asciiRuntime) (snakeToCamel (js "a_b_cd"))
      = js "a_b_cd"
      <-> restorable false (js "a_b_cd") = true).
Proof.
  split; [reflexivity|].
  apply (@snake_round_trip_iff_restorable asciiRuntime). reflexivity.
Defined.

(** *** What the converters keep *)

Lemma boundaries_keep_letters (s : jsstring) :
  forall prev,
    filter notUnderscore (List.map lowerChar (insertBoundaries prev s))
    = List.map lowerChar (filter notUnderscore s).
Proof.
  induction s as [|c rest IH]; intros prev; [reflexivity|].
  cbn [insertBoundaries]. rewrite map_app, filter_app. cbn [List.map filter].
  rewrite IH.
  replace (filter notUnderscore
             (List.map lowerChar
                (if boundaryBefore prev c rest then [underscore] else [])))
    with (@nil codeUnit)
    by (destruct (boundaryBefore prev c rest); reflexivity).
  cbn [app].
  rewrite notUnderscore_lowerChar.
  destruct (notUnderscore c); reflexivity.
Qed.

Lemma boundaries_length (s : jsstring) :
  forall prev,
    (List.length s <= List.length (insertBoundaries prev s)
     <= List.length s + List.length (filter isUpper s))%nat.
Proof.
  induction s as [|c rest IH]; intros prev; [simpl; lia|].
  cbn [insertBoundaries filter]. rewrite length_app. cbn [List.length].
  specialize (IH (Some c)).
  destruct (boundaryBefore prev c rest) eqn:Hb.
  - rewrite (boundaryBefore_upper _ _ _ Hb). simpl. lia.
  - destruct (isUpper c); simpl; lia.
Qed.

Section Keeps.
Context {R : JSRuntime}.

(** X7: On an ASCII string [camelToSnake] only writes underscores and lowers
    letters: without the underscores the output is the lowercased input
    without its underscores, and it is longer than the input by at most one
    code unit for each uppercase letter. *)
Theorem camelToSnake_only_inserts (s : jsstring) :
  forallb isAscii s = true ->
  filter notUnderscore (camelToSnake s)
  = List.map lowerChar (filter notUnderscore s)
  /\ (List.length s <= List.length (camelToSnake s)
      <= List.length s + List.length (filter isUpper s))%nat.
Proof.
  intros Ha. rewrite (camelToSnake_ascii s Ha), length_map. split.
  - apply boundaries_keep_letters.
  - apply boundaries_length.
Qed.

Lemma camelToSnake_camel_is_snake (s : jsstring) :
  isCamelCase s = true -> isSnakeCase (camelToSnake s) = true.
Proof.
  destruct s as [|c rest]; [discriminate|]. rewrite isCamelCase_cons.
  intros H. apply andb_true_iff in H as [Hc Hrest].
  rewrite (camelToSnake_of_camel c rest Hc Hrest), isSnakeCase_cons.
  pose proof (isLower_not_underscore c Hc) as Hcu.
  destruct (boundaries_snake rest (Some c) c Hrest Hcu) as (Ha & Hb & He).
  rewrite Hc, Ha, Hb, He. reflexivity.
Qed.

(** X8: A value that [validateMapping] accepts for a camelCase key is
    snake_case: after the key's own check, the mapping check implies the
    check of the value. *)
Theorem validateMapping_camel_key_snake_value (camelKey snakeValue : jsstring) :
  isCamelCase camelKey = true ->
  validateMapping camelKey snakeValue = true ->
  isSnakeCase snakeValue = true.
Proof.
  intros Hk Hv. apply validateMapping_spec in Hv. subst snakeValue.
  apply camelToSnake_camel_is_snake, Hk.
Qed.

End Keeps.

(** X7 on a concrete input. *)
Lemma camelToSnake_only_inserts_witness :
  forallb isAscii (js "get_HTTPResponse") = true
  /\ filter notUnderscore
       (camelToSnake (R := asciiRuntime) (js "get_HTTPResponse"))
     = List.map lowerChar (filter notUnderscore (js "get_HTTPResponse"))
  /\ (List.length (js "get_HTTPResponse")
      <= List.length (camelToSnake (R := asciiRuntime) (js "get_HTTPResponse"))
      <= List.length (js "get_HTTPResponse")
         + List.length (filter isUpper (js "get_HTTPResponse")))%nat.
Proof.
  split; [reflexivity|].
  apply (@camelToSnake_only_inserts asciiRuntime). reflexivity.
Defined.

(** X8 on a concrete input. *)
Lemma validateMapping_camel_key_snake_value_witness :
  (isCamelCase (js "userIDToken") = true
   /\ validateMapping (R := asciiRuntime) (js "userIDToken")
        (js "user_id_token") = true)
  /\ isSnakeCase (js "user_id_token") = true.
Proof.
  split; [split; reflexivity|].
  apply (@validateMapping_camel_key_snake_value asciiRuntime
           (js "userIDToken")); reflexivity.
Defined.

(** ** More on the scanners *)

Lemma StronglySorted_app {A : Type} (Rel : A -> A -> Prop) (l1 l2 : list A) :
  StronglySorted Rel l1 -> StronglySorted Rel l2 ->
  (forall x y, In x l1 -> In y l2 -> Rel x y) ->
  StronglySorted Rel (l1 ++ l2).
Proof.
  induction l1 as [|a l1 IH]; intros H1 H2 H12; [exact H2|].
  apply StronglySorted_inv in H1 as [H1 Ha]. cbn [app]. constructor.
  - apply IH; auto. intros x y Hx Hy. apply H12; [right|]; assumption.
  - rewrite Forall_forall in *. intros y Hy.
    apply in_app_iff in Hy as [Hy | Hy]; [apply Ha, Hy|].
    apply H12; [left; reflexivity | exact Hy].
Qed.

Lemma span_fst_sat (p : codeUnit -> bool) (s : jsstring) :
  forallb p (fst (span p s)) = true.
Proof.
  induction s as [|c rest IH]; [reflexivity|]. cbn [span].
  destruct (p c) eqn:Hc; [|reflexivity].
  destruct (span p rest) as [a b]. cbn in *. rewrite Hc, IH. reflexivity.
Qed.

Lemma span_app (p : codeUnit -> bool) (s : jsstring) :
  fst (span p s) ++ snd (span p s) = s.
Proof.
  induction s as [|c rest IH]; [reflexivity|]. cbn [span].
  destruct (p c); [|reflexivity].
  destruct (span p rest) as [a b]. cbn in *. rewrite IH. reflexivity.
Qed.

(** The name [matchColumn] finds is an identifier. *)
Lemma matchColumn_identifier (trimmed name : jsstring) :
  matchColumn trimmed = Some name ->
  exists c tail,
    name = c :: tail /\ isIdentStart c = true
    /\ forallb isWordChar tail = true.
Proof.
  unfold matchColumn. destruct (skipBacktick trimmed) as [|c s1];
    [discriminate|].
  destruct (isIdentStart c) eqn:Hc; [|discriminate].
  pose proof (span_fst_sat isWordChar s1) as Htail.
  destruct (span isWordChar s1) as [tail s2].
  destruct (span isWhiteSpace (skipBacktick s2)) as [ws s3].
  destruct ws as [|? ?]; [discriminate|].
  destruct s3 as [|w ?]; [discriminate|].
  destruct (isWordChar w); [|discriminate].
  intros E; injection E as <-. exists c, tail. auto.
Qed.

Section DatasourceFolds.
Context {R : JSRuntime}.
Variable filename : jsstring.

(** What one turn pushes does not depend on what was pushed before. *)
Lemma datasourceStep_acc sec n acc (ln : jsstring) :
  datasourceStep filename (mkState sec n acc) ln
  = mkState (inSection (datasourceStep filename (mkState sec n []) ln))
      (S n)
      (acc ++ issues (datasourceStep filename (mkState sec n []) ln)).
Proof.
  unfold datasourceStep. cbn [inSection lineNumber issues].
  destruct (startsWith (toUpperCase (trim ln)) (js "SCHEMA"));
    [cbn; rewrite app_nil_r; reflexivity|].
  destruct (sec && (startsWith (toUpperCase (trim ln)) (js "ENGINE")
                    || strictEq (trim ln) [])).
  { destruct (startsWith (toUpperCase (trim ln)) (js "ENGINE"));
      cbn; rewrite app_nil_r; reflexivity. }
  destruct (sec && (0 <? List.length (trim ln))%nat
            && negb (startsWith (trim ln) [hash]));
    [|cbn; rewrite app_nil_r; reflexivity].
  destruct (matchColumn (trim ln)) as [name|];
    [|cbn; rewrite app_nil_r; reflexivity].
  destruct (negb (isSnakeCase name)); cbn; rewrite ?app_nil_r; reflexivity.
Qed.

(** One turn pushes nothing, or one issue for its own line that names an
    identifier which is not snake_case. *)
Lemma datasourceStep_new sec n (ln : jsstring) :
  issues (datasourceStep filename (mkState sec n []) ln) = []
  \/ exists name,
       issues (datasourceStep filename (mkState sec n []) ln)
       = [columnNotSnake filename (S n) name]
       /\ isSnakeCase name = false
       /\ forallb isWordChar name = true
       /\ sec = true.
Proof.
  unfold datasourceStep. cbn [inSection lineNumber issues].
  destruct (startsWith (toUpperCase (trim ln)) (js "SCHEMA"));
    [left; reflexivity|].
  destruct sec; cbn [andb]; [|left; reflexivity].
  destruct (startsWith (toUpperCase (trim ln)) (js "ENGINE")
            || strictEq (trim ln) []).
  { destruct (startsWith (toUpperCase (trim ln)) (js "ENGINE"));
      left; reflexivity. }
  destruct ((0 <? List.length (trim ln))%nat
            && negb (startsWith (trim ln) [hash])); [|left; reflexivity].
  destruct (matchColumn (trim ln)) as [name|] eqn:Hm; [|left; reflexivity].
  destruct (isSnakeCase name) eqn:Hsn; cbn [negb]; [left; reflexivity|].
  right. exists name. cbn [issues app]. repeat split; auto.
  apply matchColumn_identifier in Hm as (c & tail & -> & Hc & Htail).
  cbn [forallb]. rewrite Htail, andb_true_r.
  apply isIdentStart_wordChar, Hc.
Qed.

Lemma datasource_fold_acc (lns : list jsstring) :
  forall sec n acc,
    fold_left (datasourceStep filename) lns (mkState sec n acc)
    = mkState
        (inSection (fold_left (datasourceStep filename) lns (mkState sec n [])))
        (n + List.length lns)
        (acc ++ issues (fold_left (datasourceStep filename) lns
                          (mkState sec n []))).
Proof.
  induction lns as [|ln rest IH]; intros sec n acc; cbn [fold_left].
  - cbn. rewrite app_nil_r, Nat.add_0_r. reflexivity.
  - rewrite (datasourceStep_acc sec n acc ln).
    rewrite (datasourceStep_acc sec n [] ln). cbn [app].
    rewrite IH. symmetry. rewrite IH. cbn [inSection issues List.length].
    rewrite <- app_assoc. f_equal. lia.
Qed.

Lemma datasourceStep_section sec n m acc acc' (ln : jsstring) :
  inSection (datasourceStep filename (mkState sec n acc) ln)
  = inSection (datasourceStep filename (mkState sec m acc') ln).
Proof.
  unfold datasourceStep. cbn [inSection lineNumber issues].
  destruct (startsWith (toUpperCase (trim ln)) (js "SCHEMA")); [reflexivity|].
  destruct (sec && (startsWith (toUpperCase (trim ln)) (js "ENGINE")
                    || strictEq (trim ln) [])).
  { destruct (startsWith (toUpperCase (trim ln)) (js "ENGINE")); reflexivity. }
  destruct (sec && (0 <? List.length (trim ln))%nat
            && negb (startsWith (trim ln) [hash])); [|reflexivity].
  destruct (matchColumn (trim ln)) as [name|]; [|reflexivity].
  destruct (negb (isSnakeCase name)); reflexivity.
Qed.

(** The issues of a run of lines read from line [n] on: each is the
    snake_case issue of its own line, names an identifier that is not
    snake_case, lies between [n + 1] and the last line, and the lines go
    strictly up. *)
Lemma datasource_fold_sound (lns : list jsstring) :
  forall sec n,
    let r := issues (fold_left (datasourceStep filename) lns
                       (mkState sec n [])) in
    Forall (fun i =>
              i = columnNotSnake filename (line i) (column i)
              /\ isSnakeCase (column i) = false
              /\ forallb isWordChar (column i) = true
              /\ (n < line i <= n + List.length lns)%nat) r
    /\ StronglySorted lt (List.map line r).
Proof.
  induction lns as [|ln rest IH]; intros sec n; cbn zeta.
  - cbn. split; constructor.
  - cbn [fold_left].
    rewrite (datasourceStep_acc sec n [] ln), datasource_fold_acc.
    cbn [issues app List.length].
    set (sec' := inSection (datasourceStep filename (mkState sec n []) ln)).
    destruct (IH sec' (S n)) as [Hall Hsorted]. cbn zeta in Hall, Hsorted.
    assert (Hall' :
      Forall (fun i =>
                i = columnNotSnake filename (line i) (column i)
                /\ isSnakeCase (column i) = false
                /\ forallb isWordChar (column i) = true
                /\ (n < line i <= n + S (List.length rest))%nat)
        (issues (fold_left (datasourceStep filename) rest
                   (mkState sec' (S n) [])))).
    { revert Hall. apply Forall_impl. intros i (H1 & H2 & H3 & H4).
      repeat split; auto; lia. }
    destruct (datasourceStep_new sec n ln) as [-> | (name & -> & Hsn & Hw & _)].
    + cbn [app]. split; assumption.
    + cbn [app List.map]. split.
      * constructor; [|exact Hall']. cbn. repeat split; auto; lia.
      * constructor; [exact Hsorted|].
        rewrite Forall_map. revert Hall. apply Forall_impl.
        intros i (_ & _ & _ & H4). cbn. lia.
Qed.


End DatasourceFolds.

Lemma engine_is_no_schema (x : jsstring) :
  startsWith x (js "ENGINE") = true -> startsWith x (js "SCHEMA") = false.
Proof.
  destruct x as [|c x]; [discriminate|].
  change (js "ENGINE") with (69 :: js "NGINE").
  change (js "SCHEMA") with (83 :: js "CHEMA").
  cbn [startsWith]. intros H. apply andb_true_iff in H as [Hc _].
  apply N.eqb_eq in Hc. subst c. reflexivity.
Qed.

Section SchemaSections.
Context {R : JSRuntime}.
Variable filename : jsstring.

(** X10: Without a schema header [parseDatasource] reports nothing, whatever
    the lines hold. *)
Theorem parseDatasource_without_schema (content : jsstring) :
  (forall ln, In ln (splitLines content) -> opensSchema ln = false) ->
  parseDatasource content filename = [].
Proof.
  intros H. unfold parseDatasource.
  rewrite (datasource_before_schema filename _ 0 [] H). reflexivity.
Qed.

Lemma datasource_engine_line (st : ScanState) (ln : jsstring) :
  closesSchema ln = true ->
  datasourceStep filename st ln
  = mkState false (S (lineNumber st)) (issues st).
Proof.
  unfold closesSchema, datasourceStep. intros H.
  rewrite (engine_is_no_schema _ H), H. cbn [orb].
  destruct (inSection st); reflexivity.
Qed.

(** X11: An ENGINE line closes the schema section: when no header follows it,
    the file has the issues of its part up to that line. *)
Theorem parseDatasource_engine_closes (content content' : jsstring)
    (pre post : list jsstring) (e : jsstring) :
  splitLines content = pre ++ e :: post ->
  splitLines content' = pre ++ [e] ->
  closesSchema e = true ->
  (forall ln, In ln post -> opensSchema ln = false) ->
  parseDatasource content filename = parseDatasource content' filename.
Proof.
  intros Hc Hc' He Hpost. unfold parseDatasource.
  rewrite Hc, Hc', !fold_left_app. cbn [fold_left].
  rewrite (datasource_engine_line _ e He).
  rewrite (datasource_before_schema filename post _ _ Hpost). reflexivity.
Qed.

(** A blank line, or a comment line that is no header and no ENGINE line,
    changes the line number only. *)
Lemma datasource_skipped_line (st : ScanState) (ln : jsstring) :
  trim ln = []
  \/ (startsWith (trim ln) [hash] = true
      /\ opensSchema ln = false /\ closesSchema ln = false) ->
  datasourceStep filename st ln
  = mkState (inSection st) (S (lineNumber st)) (issues st).
Proof.
  unfold opensSchema, closesSchema, datasourceStep.
  intros [Hb | (Hh & Hs & He)].
  - rewrite Hb, (toUpperCase_ascii [] eq_refl). cbn.
    destruct (inSection st); reflexivity.
  - rewrite Hs, He, Hh. cbn [orb negb].
    destruct (inSection st); cbn [andb]; [|reflexivity].
    destruct (strictEq (trim ln) []); [reflexivity|].
    rewrite andb_false_r. reflexivity.
Qed.

Lemma datasourceStep_shift sec n (ln : jsstring) :
  datasourceStep filename (mkState sec (S n) []) ln
  = mkState (inSection (datasourceStep filename (mkState sec n []) ln))
      (S (S n))
      (List.map bumpLine
         (issues (datasourceStep filename (mkState sec n []) ln))).
Proof.
  unfold datasourceStep. cbn [inSection lineNumber issues].
  destruct (startsWith (toUpperCase (trim ln)) (js "SCHEMA")); [reflexivity|].
  destruct (sec && (startsWith (toUpperCase (trim ln)) (js "ENGINE")
                    || strictEq (trim ln) [])).
  { destruct (startsWith (toUpperCase (trim ln)) (js "ENGINE")); reflexivity. }
  destruct (sec && (0 <? List.length (trim ln))%nat
            && negb (startsWith (trim ln) [hash])); [|reflexivity].
  destruct (matchColumn (trim ln)) as [name|]; [|reflexivity].
  destruct (negb (isSnakeCase name)); reflexivity.
Qed.

Lemma datasource_fold_shift (lns : list jsstring) :
  forall sec n,
    issues (fold_left (datasourceStep filename) lns (mkState sec (S n) []))
    = List.map bumpLine
        (issues (fold_left (datasourceStep filename) lns (mkState sec n []))).
Proof.
  induction lns as [|ln rest IH]; intros sec n; [reflexivity|].
  cbn [fold_left]. rewrite datasourceStep_shift.
  rewrite (datasourceStep_acc filename sec n [] ln). cbn [app].
  rewrite (datasource_fold_acc filename rest _ (S (S n))).
  rewrite (datasource_fold_acc filename rest _ (S n)).
  cbn [issues]. rewrite map_app, IH. reflexivity.
Qed.

(** X12: Putting a blank line or a comment line into a file moves the issues
    below it one line down and changes nothing else: in particular a blank
    line does not close the schema section. *)
Theorem parseDatasource_skipped_line_shifts (content content' : jsstring)
    (pre post : list jsstring) (b : jsstring) :
  splitLines content = pre ++ b :: post ->
  splitLines content' = pre ++ post ->
  trim b = []
  \/ (startsWith (trim b) [hash] = true
      /\ opensSchema b = false /\ closesSchema b = false) ->
  parseDatasource content filename
  = List.map (shiftLine (List.length pre))
      (parseDatasource content' filename).
Proof.
  intros Hc Hc' Hb. unfold parseDatasource.
  rewrite Hc, Hc', !fold_left_app. cbn [fold_left].
  rewrite (datasource_fold_acc filename pre false 0 []). cbn [app plus].
  set (sec := inSection (fold_left (datasourceStep filename) pre
                           (mkState false 0 []))).
  set (acc := issues (fold_left (datasourceStep filename) pre
                        (mkState false 0 []))).
  rewrite (datasource_skipped_line _ b Hb). cbn [inSection lineNumber issues].
  rewrite (datasource_fold_acc filename post sec (S (List.length pre)) acc).
  rewrite (datasource_fold_acc filename post sec (List.length pre) acc).
  cbn [issues]. rewrite datasource_fold_shift, map_app. f_equal.
  - destruct (datasource_fold_sound filename pre false 0) as [Hall _].
    cbn zeta in Hall. fold acc in Hall.
    rewrite <- (map_id acc) at 1. apply map_ext_in. intros i Hi.
    rewrite Forall_forall in Hall. destruct (Hall i Hi) as (_ & _ & _ & Hl).
    unfold shiftLine.
    replace (List.length pre <? line i)%nat with false; [reflexivity|].
    symmetry. apply Nat.ltb_ge. lia.
  - destruct (datasource_fold_sound filename post sec (List.length pre))
      as [Hall _].
    cbn zeta in Hall. apply map_ext_in. intros i Hi.
    rewrite Forall_forall in Hall. destruct (Hall i Hi) as (_ & _ & _ & Hl).
    unfold shiftLine.
    replace (List.length pre <? line i)%nat with true; [reflexivity|].
    symmetry. apply Nat.ltb_lt. lia.
Qed.

End SchemaSections.

(** *** The matches of [parsePipe] *)

Lemma asMatchAt_groups prev s columnName aliasName rest :
  asMatchAt prev s = Some (columnName, aliasName, rest) ->
  isIdentifier columnName = true /\ isIdentifier aliasName = true.
Proof.
  unfold asMatchAt. destruct s as [|c s1]; [discriminate|].
  destruct (wordBoundary prev (c :: s1) && isIdentStart c) eqn:Hc;
    [|discriminate].
  apply andb_true_iff in Hc as [_ Hc].
  pose proof (span_fst_sat isWordChar s1) as H1.
  destruct (span isWordChar s1) as [tail s2].
  destruct (span isWhiteSpace s2) as [ws1 s3].
  destruct ws1 as [|? ?]; [discriminate|].
  destruct s3 as [|a [|s' s4]]; try discriminate.
  destruct (isA a && isS s'); [|discriminate].
  destruct (span isWhiteSpace s4) as [ws2 s5].
  destruct ws2 as [|? ?]; [discriminate|].
  destruct s5 as [|d s6]; [discriminate|].
  destruct (isIdentStart d) eqn:Hd; [|discriminate].
  pose proof (span_fst_sat isWordChar s6) as H6.
  destruct (span isWordChar s6) as [tail2 s7].
  intros E; injection E as <- <- _. cbn in *.
  rewrite Hc, Hd, H1, H6. auto.
Qed.

Lemma hasAS_cons c s : hasAS s = true -> hasAS (c :: s) = true.
Proof.
  intros H. destruct s as [|b tl]; [discriminate H|].
  change (hasAS (c :: b :: tl)) with ((isA c && isS b) || hasAS (b :: tl)).
  rewrite H. apply orb_true_r.
Qed.

Lemma hasAS_app (pre s : jsstring) :
  hasAS s = true -> hasAS (pre ++ s) = true.
Proof.
  intros H. induction pre as [|c pre IH]; [exact H|].
  cbn [app]. apply hasAS_cons, IH.
Qed.

Lemma hasAS_tail c s : hasAS (c :: s) = false -> hasAS s = false.
Proof.
  intros H. apply not_true_iff_false. intros Hs.
  rewrite (hasAS_cons c s Hs) in H. discriminate H.
Qed.

Lemma asMatchAt_hasAS prev s m : asMatchAt prev s = Some m -> hasAS s = true.
Proof.
  unfold asMatchAt. destruct s as [|c s1]; [discriminate|].
  destruct (wordBoundary prev (c :: s1) && isIdentStart c); [|discriminate].
  pose proof (span_app isWordChar s1) as E1.
  destruct (span isWordChar s1) as [tail s2].
  pose proof (span_app isWhiteSpace s2) as E2.
  destruct (span isWhiteSpace s2) as [ws1 s3].
  destruct ws1 as [|w ws1]; [discriminate|].
  destruct s3 as [|a [|s' s4]]; try discriminate.
  destruct (isA a && isS s') eqn:Has; [|discriminate].
  intros _. cbn [fst snd] in E1, E2. rewrite <- E1, <- E2.
  apply hasAS_cons, hasAS_app, (hasAS_app (w :: ws1)).
  change (hasAS (a :: s' :: s4)) with ((isA a && isS s') || hasAS (s' :: s4)).
  rewrite Has. reflexivity.
Qed.

Lemma snakeAliasAt_hasAS s name : snakeAliasAt s = Some name -> hasAS s = true.
Proof.
  unfold snakeAliasAt. destruct s as [|a [|s' s1]]; try discriminate.
  destruct (isA a && isS s') eqn:Has; [|discriminate]. intros _.
  change (hasAS (a :: s' :: s1)) with ((isA a && isS s') || hasAS (s' :: s1)).
  rewrite Has. reflexivity.
Qed.

Lemma matchAllAs_from_without_AS (fuel : nat) :
  forall prev s, hasAS s = false -> matchAllAs_from fuel prev s = [].
Proof.
  induction fuel as [|fuel IH]; intros prev s H; [reflexivity|].
  destruct s as [|c s']; [reflexivity|]. cbn [matchAllAs_from].
  destruct (asMatchAt prev (c :: s')) as [m|] eqn:E.
  - apply asMatchAt_hasAS in E. congruence.
  - apply IH, (hasAS_tail c), H.
Qed.

Lemma matchSnakeAlias_without_AS (s : jsstring) :
  hasAS s = false -> matchSnakeAlias s = None.
Proof.
  induction s as [|c s' IH]; intros H; [reflexivity|].
  cbn [matchSnakeAlias].
  destruct (snakeAliasAt (c :: s')) as [name|] eqn:E.
  - apply snakeAliasAt_hasAS in E. congruence.
  - apply IH, (hasAS_tail c), H.
Qed.

Lemma scanLine_without_AS filename n (ln : jsstring) :
  hasAS ln = false -> scanLine filename n ln = [].
Proof.
  intros H. unfold scanLine, matchAllAs.
  rewrite (matchAllAs_from_without_AS _ None ln H).
  rewrite (matchSnakeAlias_without_AS ln H). reflexivity.
Qed.

Lemma matchAllAs_from_matches (fuel : nat) :
  forall prev s columnName aliasName,
    In (columnName, aliasName) (matchAllAs_from fuel prev s) ->
    exists prev' s' rest,
      asMatchAt prev' s' = Some (columnName, aliasName, rest).
Proof.
  induction fuel as [|fuel IH]; intros prev s columnName aliasName Hin;
    [destruct Hin|].
  destruct s as [|c s']; [destruct Hin|]. cbn [matchAllAs_from] in Hin.
  destruct (asMatchAt prev (c :: s')) as [[[col al] rest]|] eqn:E.
  - destruct Hin as [Hin | Hin]; [|eapply IH; exact Hin].
    injection Hin as <- <-. eauto.
  - eapply IH; exact Hin.
Qed.

Lemma includes_singleton (s : jsstring) (c : codeUnit) :
  includes s [c] = existsb (fun x => x =? c) s.
Proof.
  induction s as [|x s IH]; [reflexivity|]. cbn [includes existsb].
  rewrite IH. cbn [startsWith]. destruct s; rewrite ?andb_true_r; reflexivity.
Qed.

Lemma wordChar_no_paren c : isWordChar c = true -> (c =? 40) = false.
Proof. by_cases_on_classes. Qed.

Lemma identifier_no_paren (name : jsstring) :
  isIdentifier name = true -> includes name (js "(") = false.
Proof.
  destruct name as [|c tail]; [discriminate|]. cbn [isIdentifier].
  intros H. apply andb_true_iff in H as [Hc Htail].
  change (js "(") with [40]. rewrite includes_singleton. cbn [existsb].
  rewrite (wordChar_no_paren c (isIdentStart_wordChar c Hc)). cbn [orb].
  apply existsb_false_forallb. revert Htail. apply forallb_impl.
  intros x Hx. rewrite (wordChar_no_paren x Hx). reflexivity.
Qed.

(** X13: Both sides of every [AS] pair that [matchAll] yields are identifiers,
    so the test for a parenthesis in the column never decides anything: the
    column of a pair is reported exactly when it is not snake_case, and the
    alias exactly when it is not camelCase. *)
Theorem matchAllAs_identifiers (ln columnName aliasName : jsstring) :
  In (columnName, aliasName) (matchAllAs ln) ->
  isIdentifier columnName = true /\ isIdentifier aliasName = true
  /\ forall filename n,
       checkAs filename n (columnName, aliasName)
       = (if isSnakeCase columnName then []
          else [asColumnNotSnake filename n columnName])
         ++ (if isCamelCase aliasName then []
             else [aliasNotCamel filename n aliasName]).
Proof.
  intros Hin. apply matchAllAs_from_matches in Hin as (prev & s & rest & E).
  apply asMatchAt_groups in E as [Hc Ha]. repeat split; auto.
  intros filename n. unfold checkAs.
  rewrite (identifier_no_paren columnName Hc). cbn [negb].
  rewrite andb_true_r.
  destruct (isSnakeCase columnName), (isCamelCase aliasName); reflexivity.
Qed.

(** X13 on a concrete input. *)
Lemma matchAllAs_identifiers_witness :
  In (js "sessionId", js "session_id")
    (matchAllAs (js "  sessionId AS session_id, COUNT(*) AS n"))
  /\ isIdentifier (js "sessionId") = true
  /\ isIdentifier (js "session_id") = true.
Proof.
  split; [left; reflexivity|].
  destruct (matchAllAs_identifiers
              (js "  sessionId AS session_id, COUNT(*) AS n")
              (js "sessionId") (js "session_id")) as (H1 & H2 & _);
    [left; reflexivity | auto].
Defined.

(** *** The issues of [parsePipe] *)

Lemma checkAs_sound filename n (m : jsstring * jsstring) :
  Forall (fun i => line i = n /\ justified filename i) (checkAs filename n m).
Proof.
  destruct m as [columnName aliasName]. unfold checkAs. apply Forall_app.
  split.
  - destruct (negb (isSnakeCase columnName)
              && negb (includes columnName (js "("))) eqn:H;
      constructor; [|constructor].
    apply andb_true_iff in H as [H _]. apply negb_true_iff in H.
    split; [reflexivity|]. left. split; [reflexivity | exact H].
  - destruct (negb (isCamelCase aliasName)) eqn:H;
      constructor; [|constructor].
    apply negb_true_iff in H.
    split; [reflexivity|]. right; left. split; [reflexivity | exact H].
Qed.

Lemma scanLine_sound filename n (ln : jsstring) :
  Forall (fun i => line i = n /\ justified filename i)
    (scanLine filename n ln).
Proof.
  unfold scanLine. apply Forall_app. split.
  - induction (matchAllAs ln) as [|m ms IH]; [constructor|].
    cbn [flat_map]. apply Forall_app. split; [apply checkAs_sound | exact IH].
  - destruct (matchSnakeAlias ln) as [aliasName|]; [|constructor].
    destruct (isSnakeCase aliasName) eqn:H; constructor; [|constructor].
    split; [reflexivity|]. right; right. split; [reflexivity | exact H].
Qed.

Lemma sorted_constant (n : nat) (l : list nat) :
  Forall (fun x => x = n) l -> StronglySorted le l.
Proof.
  induction 1 as [|x l Hx Hl IH]; constructor; [exact IH|].
  subst x. revert Hl. apply Forall_impl. intros y ->. constructor.
Qed.

Lemma scanFrom_sound filename (lns : list jsstring) :
  forall n,
    Forall (fun i => (n <= line i < n + List.length lns)%nat
                     /\ justified filename i)
      (scanFrom filename n lns)
    /\ StronglySorted le (List.map line (scanFrom filename n lns)).
Proof.
  induction lns as [|ln rest IH]; intros n; [split; constructor|].
  cbn [scanFrom List.length]. destruct (IH (S n)) as [Hall Hsorted].
  pose proof (scanLine_sound filename n ln) as Hln. split.
  - apply Forall_app. split.
    + revert Hln. apply Forall_impl. intros i [-> Hj]. split; [lia | exact Hj].
    + revert Hall. apply Forall_impl. intros i [Hl Hj]. split; [lia | exact Hj].
  - rewrite map_app. apply StronglySorted_app; [|exact Hsorted|].
    + apply (sorted_constant n). rewrite Forall_map.
      revert Hln. apply Forall_impl. intros i [Hi _]. exact Hi.
    + intros x y Hx Hy. apply in_map_iff in Hx as (i & <- & Hi).
      apply in_map_iff in Hy as (j & <- & Hj).
      rewrite Forall_forall in Hln, Hall.
      destruct (Hln i Hi) as [-> _]. destruct (Hall j Hj) as [Hl _]. lia.
Qed.

Lemma scanFrom_without_AS filename (lns : list jsstring) :
  forall n, (forall ln, In ln lns -> hasAS ln = false) ->
  scanFrom filename n lns = [].
Proof.
  induction lns as [|ln rest IH]; intros n H; [reflexivity|].
  cbn [scanFrom]. rewrite scanLine_without_AS by (apply H; left; reflexivity).
  apply IH. intros x Hx. apply H. right; exact Hx.
Qed.

Section PipeIssues.
Context {R : JSRuntime}.
Variable filename : jsstring.

Lemma first_sql_line (lns : list jsstring) :
  (forall ln, In ln lns -> startsSql ln = false)
  \/ exists pre ln post,
       lns = pre ++ ln :: post
       /\ (forall x, In x pre -> startsSql x = false)
       /\ startsSql ln = true.
Proof.
  induction lns as [|l rest IH]; [left; intros ln []|].
  destruct (startsSql l) eqn:Hl.
  - right. exists [], l, rest. repeat split; auto. intros x [].
  - destruct IH as [Hall | (pre & ln & post & -> & Hpre & Hln)].
    + left. intros x [<- | Hx]; auto.
    + right. exists (l :: pre), ln, post. repeat split; auto.
      intros x [<- | Hx]; auto.
Qed.

(** X14: Every issue of [parsePipe] comes from one of its three checks, with
    the file name, the severity [error] and the message of that check, and
    the check did fail on the name it reports; its line is a line of the
    file; and the issues come in the order of the lines. *)
Theorem parsePipe_issues_sound (content : jsstring) :
  Forall (fun i =>
            (1 <= line i <= List.length (splitLines content))%nat
            /\ justified filename i)
    (parsePipe content filename)
  /\ StronglySorted le (List.map line (parsePipe content filename)).
Proof.
  unfold parsePipe.
  destruct (first_sql_line (splitLines content))
    as [Hall | (pre & ln & post & E & Hpre & Hln)].
  - rewrite (pipe_outside_block filename _ 0 [] Hall). split; constructor.
  - rewrite E, (pipe_block_opens filename pre post ln Hpre Hln).
    destruct (scanFrom_sound filename (ln :: post) (S (List.length pre)))
      as [Hs Hsorted].
    split; [|exact Hsorted]. revert Hs. apply Forall_impl.
    intros i [Hl Hj]. split; [|exact Hj].
    rewrite length_app. cbn [List.length] in *. lia.
Qed.

(** X15: A file in which no line holds the letters [AS], in either case, next
    to each other yields no issue. *)
Theorem parsePipe_without_AS (content : jsstring) :
  (forall ln, In ln (splitLines content) -> hasAS ln = false) ->
  parsePipe content filename = [].
Proof.
  intros H. unfold parsePipe.
  destruct (first_sql_line (splitLines content))
    as [Hall | (pre & ln & post & E & Hpre & Hln)].
  - rewrite (pipe_outside_block filename _ 0 [] Hall). reflexivity.
  - rewrite E, (pipe_block_opens filename pre post ln Hpre Hln).
    apply scanFrom_without_AS. intros x Hx. apply H. rewrite E.
    apply in_app_iff. right. exact Hx.
Qed.

End PipeIssues.

(** X15 on a concrete input. *)
Lemma parsePipe_without_AS_witness :
  parsePipe (R := asciiRuntime)
    (joinLines [js "SELECT userId, session_id"; js "FROM events"])
    (js "q.pipe") = [].
Proof.
  apply (@parsePipe_without_AS asciiRuntime). intros ln Hin.
  vm_compute in Hin. destruct Hin as [<- | [<- | []]]; reflexivity.
Defined.

(** ** The command line *)


Lemma helpFlag_dashed (arg : jsstring) :
  isHelpFlag arg = true -> startsWith arg (js "-") = true.
Proof.
  unfold isHelpFlag. intros H.
  apply orb_true_iff in H as [H | H]; apply strictEq_spec in H; subst arg;
    reflexivity.
Qed.




Section LintResults.
Context {R : JSRuntime} {H : Host}.

Lemma lintFiles_status (searchPath : jsstring) (files : list jsstring) :
  forall v1 v2 out1 out2 acc,
    snd (lintFiles searchPath v1 files out1 acc)
    = snd (lintFiles searchPath v2 files out2 acc).
Proof.
  induction files as [|file rest IH]; intros v1 v2 out1 out2 acc;
    [reflexivity|].
  cbn [lintFiles]. destruct (readFile file) as [e|content]; [reflexivity|].
  apply IH.
Qed.

(** X17: The status [lintTinybirdFiles] resolves to, or the exception it rejects
    with, does not depend on the verbose option. *)
Theorem lint_status_ignores_verbose (p : option jsstring)
    (v1 v2 : option bool) :
  snd (lintTinybirdFiles (mkOptions p v1))
  = snd (lintTinybirdFiles (mkOptions p v2)).
Proof.
  unfold lintTinybirdFiles. cbn [path verbose].
  set (searchPath := match p with
                     | Some p0 => if falsy p0 then cwd else p0
                     | None => cwd
                     end).
  destruct (glob (js "**/*.datasource") searchPath) as [e|ds]; [reflexivity|].
  destruct (glob (js "**/*.pipe") searchPath) as [e|ps]; [reflexivity|].
  destruct (glob (js "**/*.incl") searchPath) as [e|ins]; [reflexivity|].
  destruct (List.length (ds ++ ps ++ ins) =? 0)%nat; [reflexivity|].
  match goal with
  | |- snd (match lintFiles ?sp ?a ?fs ?o1 ?acc with _ => _ end)
       = snd (match lintFiles ?sp ?b ?fs ?o2 ?acc with _ => _ end) =>
      pose proof (lintFiles_status sp fs a b o1 o2 acc) as E;
      destruct (lintFiles sp a fs o1 acc) as [outa [ea|ia]];
      destruct (lintFiles sp b fs o2 acc) as [outb [eb|ib]];
      cbn [snd] in E; try discriminate E
  end.
  - injection E as ->. reflexivity.
  - injection E as ->. unfold summary.
    destruct (List.length ib =? 0)%nat; reflexivity.
Qed.

Lemma lintFiles_readable (searchPath : jsstring) (verbose : bool)
    (files : list jsstring) :
  forall out acc,
    (forall f, In f files -> exists content, readFile f = inr content) ->
    snd (lintFiles searchPath verbose files out acc)
    = inr (acc ++ flat_map (issuesOf searchPath) files).
Proof.
  induction files as [|file rest IH]; intros out acc Hread.
  - cbn. rewrite app_nil_r. reflexivity.
  - cbn [lintFiles flat_map]. unfold issuesOf at 1.
    destruct (Hread file (or_introl eq_refl)) as [content Hc]. rewrite Hc.
    rewrite IH by (intros f Hf; apply Hread; right; exact Hf).
    rewrite app_assoc. reflexivity.
Qed.

Lemma flat_map_empty {A B : Type} (f : A -> list B) (l : list A) :
  (List.length (flat_map f l) =? 0)%nat
  = negb (existsb (fun x => (0 <? List.length (f x))%nat) l).
Proof.
  induction l as [|x l IH]; [reflexivity|]. cbn [flat_map existsb].
  rewrite length_app, negb_orb, <- IH.
  destruct (f x); [reflexivity|]. reflexivity.
Qed.

(** X18: When the three searches succeed and every file found can be read,
    [lintTinybirdFiles] resolves to 1 if some file has an issue and to 0
    otherwise, also when no file is found. *)
Theorem lint_exit_status (options : LintOptions)
    (datasourceFiles pipeFiles inclFiles : list jsstring) :
  let searchPath := searchPathOf options in
  let allFiles := datasourceFiles ++ pipeFiles ++ inclFiles in
  glob (js "**/*.datasource") searchPath = inr datasourceFiles ->
  glob (js "**/*.pipe") searchPath = inr pipeFiles ->
  glob (js "**/*.incl") searchPath = inr inclFiles ->
  (forall f, In f allFiles -> exists content, readFile f = inr content) ->
  snd (lintTinybirdFiles options)
  = inr (if existsb
              (fun f => (0 <? List.length (issuesOf searchPath f))%nat)
              allFiles
         then 1%nat else 0%nat).
Proof.
  intros searchPath allFiles Hds Hps Hins Hread.
  unfold lintTinybirdFiles. fold (searchPathOf options). fold searchPath.
  rewrite Hds, Hps, Hins. fold allFiles.
  destruct (List.length allFiles =? 0)%nat eqn:Hn.
  - apply Nat.eqb_eq in Hn. apply length_zero_iff_nil in Hn. rewrite Hn.
    reflexivity.
  - match goal with
    | |- snd (match lintFiles ?sp ?v ?fs ?o ?acc with _ => _ end) = _ =>
        pose proof (lintFiles_readable sp v fs o acc Hread) as E;
        destruct (lintFiles sp v fs o acc) as [out [e|allIssues]];
        cbn [snd] in E; [discriminate E|]
    end.
    injection E as ->. cbn [app]. unfold summary.
    rewrite flat_map_empty.
    destruct (existsb _ allFiles); reflexivity.
Qed.



End LintResults.

(** X18 on a concrete input. *)
Lemma lint_exit_status_witness :
  snd (lintTinybirdFiles (R := asciiRuntime) (H := demoHost false)
         (mkOptions None (Some true)))
  = inr 1%nat.
Proof.
  apply (@lint_exit_status asciiRuntime (demoHost false)
           (mkOptions None (Some true))
           [js "/project/events.datasource"] [js "/project/top.pipe"]
           [js "/project/part.incl"]); try reflexivity.
  intros f [<- | [<- | [<- | []]]]; eexists; reflexivity.
Defined.


(** X10 on a concrete input. *)
Lemma parseDatasource_without_schema_witness :
  parseDatasource (R := asciiRuntime)
    (joinLines [js "userId String,"; js "ENGINE MergeTree"])
    (js "t.datasource") = [].
Proof.
  apply (@parseDatasource_without_schema asciiRuntime). intros ln Hin.
  vm_compute in Hin. destruct Hin as [<- | [<- | []]]; reflexivity.
Defined.

(** X11 on a concrete input. *)
Lemma parseDatasource_engine_closes_witness :
  parseDatasource (R := asciiRuntime)
    (joinLines [js "SCHEMA >"; js "  userId String"; js "ENGINE MergeTree";
                js "  sessionId String"])
    (js "t.datasource")
  = parseDatasource (R := asciiRuntime)
      (joinLines [js "SCHEMA >"; js "  userId String"; js "ENGINE MergeTree"])
      (js "t.datasource").
Proof.
  apply (@parseDatasource_engine_closes asciiRuntime (js "t.datasource") _ _
           [js "SCHEMA >"; js "  userId String"] [js "  sessionId String"]
           (js "ENGINE MergeTree")); try reflexivity.
  intros ln [<- | []]. reflexivity.
Defined.

(** X12 on a concrete input. *)
Lemma parseDatasource_skipped_line_shifts_witness :
  parseDatasource (R := asciiRuntime)
    (joinLines [js "SCHEMA >"; js "  user_id String,"; js "";
                js "  userId String"])
    (js "t.datasource")
  = List.map (shiftLine 2)
      (parseDatasource (R := asciiRuntime)
         (joinLines [js "SCHEMA >"; js "  user_id String,";
                     js "  userId String"])
         (js "t.datasource")).
Proof.
  apply (@parseDatasource_skipped_line_shifts asciiRuntime (js "t.datasource")
           _ _ [js "SCHEMA >"; js "  user_id String,"] [js "  userId String"]
           (js "")); try reflexivity.
  left; reflexivity.
Defined.

(** ** The repository's tests, run on the model

    [test/utils/caseUtils.test.ts] and [test/tb-lint/parsers.test.ts] state
    what the source does on these inputs; the model does the same. *)

Section RepositoryTests.
Local Open Scope string_scope.

Example test_isCamelCase :
  forallb (fun s => isCamelCase (js s))
    ["userId"; "sessionId"; "createdAt"; "userName"; "myVar"; "abc"; "a";
     "user123"] = true
  /\ existsb (fun s => isCamelCase (js s))
       ["user_id"; "UserId"; "USER_ID"; "user-id"; "user id"; "1user"; "";
        "user$id"] = false.
Proof. split; reflexivity. Qed.

Example test_isSnakeCase :
  forallb (fun s => isSnakeCase (js s))
    ["user_id"; "session_id"; "created_at"; "user_name"; "my_var"; "abc";
     "a"; "user_123"; "user123"] = true
  /\ existsb (fun s => isSnakeCase (js s))
       ["userId"; "UserId"; "USER_ID"; "user-id"; "user id"; "1user"; "";
        "user__id"; "user_id_"] = false.
Proof. split; reflexivity. Qed.

Example test_camelToSnake :
  List.map (fun s => camelToSnake (js s))
    ["userId"; "sessionId"; "createdAt"; "userName"; "myVariable"; "userID";
     "userIDToken"; "HTTPResponse"; "parseHTMLString"; "user"; "id";
     "user123Id"; "version2Update"; ""]
  = List.map js
      ["user_id"; "session_id"; "created_at"; "user_name"; "my_variable";
       "user_id"; "user_id_token"; "http_response"; "parse_html_string";
       "user"; "id"; "user123_id"; "version2_update"; ""].
Proof. reflexivity. Qed.

Example test_snakeToCamel :
  List.map (fun s => snakeToCamel (js s))
    ["user_id"; "session_id"; "created_at"; "user_name"; "my_variable";
     "user"; "id"; "user_123_id"; "version_2_update"; ""]
  = List.map js
      ["userId"; "sessionId"; "createdAt"; "userName"; "myVariable"; "user";
       "id"; "user123Id"; "version2Update"; ""].
Proof. reflexivity. Qed.

Example test_validateMapping :
  forallb (fun p => validateMapping (js (fst p)) (js (snd p)))
    [("userId", "user_id"); ("sessionId", "session_id");
     ("createdAt", "created_at"); ("userName", "user_name");
     ("userIDToken", "user_id_token"); ("HTTPResponse", "http_response")]
  = true
  /\ existsb (fun p => validateMapping (js (fst p)) (js (snd p)))
       [("userId", "userid"); ("userId", "user_identifier");
        ("sessionId", "session"); ("createdAt", "created")]
     = false.
Proof. split; reflexivity. Qed.

Example test_round_trips :
  forallb (fun s => strictEq (snakeToCamel (camelToSnake (js s))) (js s))
    ["userId"; "sessionId"; "createdAt"; "userName"; "myVariable";
     "user123Id"] = true
  /\ forallb (fun s => strictEq (camelToSnake (snakeToCamel (js s))) (js s))
       ["user_id"; "session_id"; "created_at"; "user_name"; "my_variable"]
     = true.
Proof. split; reflexivity. Qed.

Example test_parseDatasource :
  datasourceIssues
    ["SCHEMA >"; "    user_id String,"; "    session_id String,";
     "    created_at DateTime,"; "    event_name String"; "";
     "ENGINE MergeTree"] = []
  /\ List.map column
       (datasourceIssues
          ["SCHEMA >"; "    userId String,"; "    session_id String,";
           "    createdAt DateTime"; ""; "ENGINE MergeTree"])
     = [js "userId"; js "createdAt"]
  /\ List.length
       (datasourceIssues
          ["SCHEMA >"; "    UserId String,"; "    SessionId String"; "";
           "ENGINE MergeTree"]) = 2%nat
  /\ datasourceIssues
       ["SCHEMA >"; "    `user_id` String,"; "    `session_id` String"; "";
        "ENGINE MergeTree"] = []
  /\ datasourceIssues
       ["SCHEMA >"; "    user_id String,";
        "    created_at DateTime DEFAULT now(),";
        "    is_active Boolean DEFAULT true"; ""; "ENGINE MergeTree"] = []
  /\ datasourceIssues
       ["SCHEMA >"; "    user_id String,";
        "    # This is a comment about userId (camelCase in comment is OK)";
        "    session_id String"; ""; "ENGINE MergeTree"] = []
  /\ datasourceIssues [""] = []
  /\ datasourceIssues ["# This is a comment"; "# Another comment"] = [].
Proof. repeat split; reflexivity. Qed.

Example test_parsePipe :
  pipeIssues
    ["SELECT"; "    user_id AS userId,"; "    session_id AS sessionId,";
     "    created_at AS createdAt"; "FROM events"] = []
  /\ List.map column
       (pipeIssues
          ["SELECT"; "    userId AS userId,"; "    sessionId AS sessionId";
           "FROM events"])
     = [js "userId"; js "sessionId"]
  /\ List.map (fun i => (line i, column i))
       (pipeIssues
          ["SELECT"; "    user_id AS user_id,"; "    session_id AS session_id";
           "FROM events"])
     = [(2%nat, js "user_id"); (2%nat, js "user_id");
        (3%nat, js "session_id"); (3%nat, js "session_id")]
  /\ pipeIssues
       ["SELECT"; "    user_id AS userId,"; "    COUNT(*) AS count,";
        "    MAX(created_at) AS lastSeen"; "FROM events";
        "WHERE user_id IS NOT NULL"; "GROUP BY user_id"] = []
  /\ pipeIssues
       ["WITH user_sessions AS ("; "    SELECT";
        "        user_id AS userId,"; "        session_id AS sessionId";
        "    FROM sessions"; ")"; "SELECT"; "    userId,"; "    sessionId";
        "FROM user_sessions"] = []
  /\ List.length
       (pipeIssues
          ["SELECT"; "    user_id AS user_id,"; "    UserId AS UserId,";
           "    sessionId AS session_id"; "FROM events"]) = 7%nat
  /\ pipeIssues [""] = []
  /\ pipeIssues ["# This is a comment"; "# Another comment"] = [].
Proof. repeat split; reflexivity. Qed.

Example test_line_numbers :
  List.map (fun i => (line i, column i))
    (datasourceIssues
       ["SCHEMA >"; "    user_id String,"; "    userId String,";
        "    session_id String"; ""; "ENGINE MergeTree"])
  = [(3%nat, js "userId")].
Proof. reflexivity. Qed.

End RepositoryTests.
